(** * csv_parse.py: USDA food tables to per-100g and per-serving nutrient tables

    A shallow embedding of [src/csv_parse.py].  Python floats are IEEE-754
    binary64 numbers, so cell values are primitive floats ([PrimFloat.float])
    and the comparisons with the sentinel are IEEE comparisons.  Python
    dictionaries are [gmap]s, data frames are lists of records in row order,
    and a missing CSV cell (pandas NaN in an object column) is [None]. *)

From Stdlib Require Import ZArith List String Ascii Bool Lia Floats.
From Stdlib Require QArith.
From stdpp Require Import gmap strings list sorting pretty.

Set Warnings "-inexact-float".

Local Open Scope Z_scope.

(** ** Floats as pandas uses them *)

Module Py.

(** The literal [-1.0] that marks a missing measurement. *)
Definition SENTINEL : float := (-1.0)%float.

(** [float('nan')], what pandas stores in an empty numeric cell. *)
Definition NaN : float := PrimFloat.nan.

(** [pd.notna] / [Series.notna] on a float cell. *)
Definition notna (x : float) : bool := negb (PrimFloat.is_nan x).

(** [Series.fillna(v)] on one float cell. *)
Definition fillna (v x : float) : float :=
  if PrimFloat.is_nan x then v else x.

(** [Series.map(d)] on one cell of a float-valued dictionary: a key that is
    not in the dictionary maps to NaN. *)
Definition map_float `{Countable K} (d : gmap K float) (k : K) : float :=
  default NaN (d !! k).

(** ** Strings: [str.lower], [str.isspace], [str.strip]

    A Python [str] is modelled by its characters below code 128; a byte
    above 127 is kept as it is and is neither a letter nor a space. *)

Definition is_upper (c : ascii) : bool :=
  let n := N_of_ascii c in ((65 <=? n) && (n <=? 90))%N.

Definition lower_char (c : ascii) : ascii :=
  if is_upper c then ascii_of_N (N_of_ascii c + 32) else c.

Definition lower (s : list ascii) : list ascii := lower_char <$> s.

(** [str.isspace] on one character, which is also the class [\s] of [re]
    on [str] patterns: TAB, LF, VT, FF, CR, the separators 0x1c to 0x1f
    and the space. *)
Definition isspace (c : ascii) : bool :=
  let n := N_of_ascii c in
  (((9 <=? n) && (n <=? 13)) || ((28 <=? n) && (n <=? 32)))%N.

Fixpoint lstrip (s : list ascii) : list ascii :=
  match s with
  | [] => []
  | c :: s' => if isspace c then lstrip s' else s
  end.

Definition rstrip (s : list ascii) : list ascii := rev (lstrip (rev s)).

Definition strip (s : list ascii) : list ascii := rstrip (lstrip s).

(** Truth value of a [str]: non-empty. *)
Definition truthy (s : string) : bool :=
  match s with EmptyString => false | _ => true end.

(** A number as it sits in a row of a data frame read by [read_csv]: a
    column whose cells are all integers is an integer column, any other
    numeric column holds floats. *)
Inductive num :=
| Int (z : Z)
| Float (f : float).

(** The sign and the magnitude of a float that is a whole number. *)
Definition whole (f : float) : option (bool * Z) :=
  match Prim2SF f with
  | S754_zero s => Some (s, 0)
  | S754_finite s m e =>
      if 0 <=? e then Some (s, Z.pos m * 2 ^ e)
      else if Z.pos m mod 2 ^ (- e) =? 0 then Some (s, Z.pos m / 2 ^ (- e))
      else None
  | _ => None
  end.

(** [str(x)] of a float that is a whole number below 2^53: its digits and
    [".0"], as in ['1.0'] and ['-0.0']. *)
Definition str_whole (f : float) : option string :=
  match whole f with
  | Some (s, n) =>
      if n <? 2 ^ 53
      then Some ((if s : bool then "-" else "") +:+ pretty n +:+ ".0")
      else None
  | None => None
  end.

End Py.

(** ** The subset of [re] that the ingredient pattern uses *)

Module Re.

Inductive regex :=
| Class (p : ascii -> bool)      (* one character of a class *)
| Seq (r1 r2 : regex)            (* r1 r2 *)
| Alt (r1 r2 : regex)            (* r1|r2, the left branch is tried first *)
| Star (r : regex).              (* r*, greedy *)

Definition Plus (r : regex) : regex := Seq r (Star r).

Definition Lit (c : ascii) : regex := Class (fun x => bool_decide (x = c)).

(** Backtracking matcher anchored at the head of [s]: [k] receives what is
    left after [r] and decides whether the rest of the pattern matches; the
    result is the input left after the whole match.  A greedy star first
    tries one more iteration and falls back to stopping. *)
Fixpoint rmatch (r : regex) (s : list ascii)
    (k : list ascii -> option (list ascii)) : option (list ascii) :=
  match r with
  | Class p =>
      match s with
      | c :: s' => if p c then k s' else None
      | [] => None
      end
  | Seq r1 r2 => rmatch r1 s (fun s' => rmatch r2 s' k)
  | Alt r1 r2 =>
      match rmatch r1 s k with
      | Some rest => Some rest
      | None => rmatch r2 s k
      end
  | Star r1 =>
      (fix loop (n : nat) (s : list ascii) : option (list ascii) :=
         match n with
         | O => k s
         | S n' =>
             match rmatch r1 s (fun s' =>
                      if (length s' <? length s)%nat then loop n' s' else None) with
             | Some rest => Some rest
             | None => k s
             end
         end) (length s) s
  end.


(** [re.match]: the input left after a match at the head of [s]. *)
Definition match_prefix (r : regex) (s : list ascii) : option (list ascii) :=
  rmatch r s Some.

(** [re.split(r, s)] for a pattern without groups: the scan moves one
    character to the right until the pattern matches, cuts the piece read
    so far and goes on after the match.  [cur] is the current piece,
    reversed.  A match that consumes nothing is skipped; the ingredient
    pattern has none. *)
Fixpoint split_from (fuel : nat) (r : regex) (s cur : list ascii)
    : list (list ascii) :=
  match fuel with
  | O => [rev cur ++ s]
  | S fuel' =>
      match s with
      | [] => [rev cur]
      | c :: s' =>
          match match_prefix r s with
          | Some rest =>
              if (length rest <? length s)%nat
              then rev cur :: split_from fuel' r rest []
              else split_from fuel' r s' (c :: cur)
          | None => split_from fuel' r s' (c :: cur)
          end
      end
  end.

Definition split (r : regex) (s : list ascii) : list (list ascii) :=
  split_from (S (length s)) r s [].

End Re.

(** ** [process_ingredients] *)

(** The pattern [\s*,\s*|\s+and\s+|\s*[\(\)]\s*]. *)
Definition ingredient_pattern : Re.regex :=
  let ws := Re.Class Py.isspace in
  Re.Alt
    (Re.Seq (Re.Star ws) (Re.Seq (Re.Lit ",") (Re.Star ws)))
    (Re.Alt
       (Re.Seq (Re.Plus ws)
          (Re.Seq (Re.Lit "a") (Re.Seq (Re.Lit "n") (Re.Seq (Re.Lit "d") (Re.Plus ws)))))
       (Re.Seq (Re.Star ws)
          (Re.Seq (Re.Class (fun c => bool_decide (c = "("%char) || bool_decide (c = ")"%char)))
             (Re.Star ws)))).

(** The argument is [None] when the cell is not a [str] (a missing cell is
    the float NaN). *)
Definition process_ingredients (s : option string) : list string :=
  match s with
  | None => []
  | Some s =>
      if negb (Py.truthy s) then []
      else
        let s_low := Py.lower (list_ascii_of_string s) in
        let items := Re.split ingredient_pattern s_low in
        string_of_list_ascii <$>
          (Py.strip <$> filter (fun item => Py.strip item ≠ []) items)
  end.

(** ** Data frames

    A frame is the list of its rows, in row order.  The generic operations
    below are the pandas calls the script makes, on that representation. *)

Module Pd.

(** [DataFrame.merge(how='left')] on one key: every left row, once for
    each right row with an equal key, or once with nothing. *)
Definition merge_left {A B C} (same_key : A -> B -> bool)
    (join : A -> option B -> C) (l : list A) (r : list B) : list C :=
  l ≫= (fun a =>
    match filter (fun b => same_key a b = true) r with
    | [] => [join a None]
    | bs => (fun b => join a (Some b)) <$> bs
    end).

(** [DataFrame.merge()] with the default [how='inner']. *)
Definition merge_inner {A B C} (same_key : A -> B -> bool)
    (join : A -> B -> C) (l : list A) (r : list B) : list C :=
  l ≫= (fun a => join a <$> filter (fun b => same_key a b = true) r).

(** [DataFrame.drop_duplicates()], which keeps the first of equal rows;
    [seen] holds the rows kept so far. *)
Fixpoint drop_duplicates_from {A} (same : A -> A -> bool) (seen l : list A)
    : list A :=
  match l with
  | [] => []
  | x :: l' =>
      if existsb (same x) seen then drop_duplicates_from same seen l'
      else x :: drop_duplicates_from same (x :: seen) l'
  end.

Definition drop_duplicates {A} (same : A -> A -> bool) (l : list A) : list A :=
  drop_duplicates_from same [] l.

(** Order of Python strings, by character code. *)
Definition str_le (a b : string) : Prop := String.leb a b = true.

#[global] Instance str_le_dec a b : Decision (str_le a b).
Proof. unfold str_le. apply _. Defined.

(** [sorted(list(s.unique()))] on strings and on integers. *)
Definition sorted_unique_str (l : list string) : list string :=
  merge_sort str_le (remove_dups l).

Definition sorted_unique_Z (l : list Z) : list Z :=
  merge_sort Z.le (remove_dups l).

(** A frame of float cells indexed by food id: the column labels in
    order, and for each index value the cells of its row by label. *)
Record wide := {
  columns : list string;
  rows : list (Z * gmap string float)
}.

(** The cells of a row over the labels [cols]. *)
Definition row_of (cols : list string) (cell : string -> float)
    : gmap string float :=
  list_to_map ((fun c => (c, cell c)) <$> cols).

(** [df.reindex(columns=cols, fill_value=v)]: the labels become [cols]; a
    label the frame did not have is a new column of [v]. *)
Definition reindex_columns (cols : list string) (v : float) (df : wide) : wide :=
  {| columns := cols;
     rows := (fun r : Z * gmap string float => (r.1, row_of cols (fun c => default v (r.2 !! c)))) <$> rows df |}.

(** [df.fillna(v)]. *)
Definition fillna (v : float) (df : wide) : wide :=
  {| columns := columns df;
     rows := (fun r : Z * gmap string float => (r.1, Py.fillna v <$> r.2)) <$> rows df |}.

(** [df.drop(columns=cs)]. *)
Definition drop_columns (cs : list string) (df : wide) : wide :=
  {| columns := filter (fun c => c ∉ cs) (columns df);
     rows := (fun r : Z * gmap string float =>
                (r.1, filter (fun kv : string * float => kv.1 ∉ cs) r.2)) <$> rows df |}.

(** [(df[col] == v).sum()]: the rows whose cell under [col] compares equal
    to [v]. *)
Definition count_eq (col : string) (v : float) (df : wide) : nat :=
  length (filter (fun r : Z * gmap string float => PrimFloat.eqb (default Py.NaN (r.2 !! col)) v = true) (rows df)).

End Pd.

(** ** The input tables *)

(** food.csv; [food_category_id] is given after [pd.to_numeric(...,
    errors='coerce')], [None] being NaN. *)
Record food := {
  food_fdc_id : Z;
  food_description : string;
  food_data_type : string;
  food_category_id : option Z
}.

(** nutrient.csv *)
Record nutrient := {
  nutrient_id : Z;
  nutrient_name : string;
  nutrient_unit_name : string
}.

(** food_nutrient.csv; an empty amount is NaN. *)
Record food_nutrient := {
  fn_fdc_id : Z;
  fn_nutrient_id : Z;
  fn_amount : float
}.

(** food_portion.csv; an empty [gram_weight] is NaN, an empty
    [portion_description] is [None]. *)
Record food_portion := {
  portion_fdc_id : Z;
  portion_measure_unit_id : Z;
  portion_gram_weight : float;
  portion_description : option string;
  portion_amount : Py.num
}.

(** measure_unit.csv *)
Record measure_unit := {
  measure_unit_id : Z;
  measure_unit_name : string
}.

(** food_category.csv *)
Record food_category := {
  category_id : Z;
  category_description : option string
}.

(** branded_food.csv *)
Record branded_food := {
  branded_fdc_id : Z;
  brand_owner : option string;
  brand_name : option string;
  branded_ingredients : option string
}.

(** The input folder: a file that does not exist is [None]. *)
Record folder := {
  food_csv : option (list food);
  nutrient_csv : option (list nutrient);
  food_nutrient_csv : option (list food_nutrient);
  food_portion_csv : option (list food_portion);
  measure_unit_csv : option (list measure_unit);
  food_category_csv : option (list food_category);
  branded_food_csv : option (list branded_food)
}.

(** ** Configuration *)

Definition VALID_FOOD_TYPES : list string :=
  ["foundation_food"; "sr_legacy_food"; "survey_fndds_food"; "branded_food"].

Definition UNIT_TO_GRAM_FACTOR : gmap string float :=
  list_to_map [("G", 1.0%float); ("MG", 0.001%float); ("UG", 1e-6%float)].

(** ** 2. Nutrient mappings *)

(** [df_nutrient['unit_name'].map(UNIT_TO_GRAM_FACTOR).fillna(1.0)] *)
Definition conversion_factor (n : nutrient) : float :=
  Py.fillna 1.0%float (Py.map_float UNIT_TO_GRAM_FACTOR (nutrient_unit_name n)).

(** [lambda x: 'G' if x in UNIT_TO_GRAM_FACTOR else x] *)
Definition final_unit (n : nutrient) : string :=
  if decide (is_Some (UNIT_TO_GRAM_FACTOR !! nutrient_unit_name n)) then "G"
  else nutrient_unit_name n.

(** [df_nutrient['name'] + ' (' + df_nutrient['final_unit'] + ')'] *)
Definition column_name (n : nutrient) : string :=
  nutrient_name n +:+ " (" +:+ final_unit n +:+ ")".

(** [df_nutrient.set_index('id')[...].to_dict()]: of two rows with one id
    the later one stays. *)
Definition to_dict {V} (value : nutrient -> V) (df_nutrient : list nutrient)
    : gmap Z V :=
  foldl (fun d n => <[nutrient_id n := value n]> d) ∅ df_nutrient.

Definition id_to_column (df_nutrient : list nutrient) : gmap Z string :=
  to_dict column_name df_nutrient.

Definition id_to_converter (df_nutrient : list nutrient) : gmap Z float :=
  to_dict conversion_factor df_nutrient.

Definition all_nutrient_columns (df_nutrient : list nutrient) : list string :=
  Pd.sorted_unique_str (column_name <$> df_nutrient).

(** ** 3. Filter and enrich the foods *)

(** A row of [df_food_filtered] restricted to the columns that reach the
    outputs: [fdc_id], [description], [category], [ingredients]. *)
Record food_row := {
  fdc_id : Z;
  description : string;
  category : string;
  ingredients : list string
}.

(** [df_food[df_food['data_type'].isin(VALID_FOOD_TYPES)]] *)
Definition filter_valid_types (df_food : list food) : list food :=
  filter (fun f => food_data_type f ∈ VALID_FOOD_TYPES) df_food.

(** The left merge with the categories and [fillna('Unknown')]. *)
Definition add_category (df_food_filtered : list food)
    (df_category : list food_category) : list food_row :=
  Pd.merge_left
    (fun f c => bool_decide (food_category_id f = Some (category_id c)))
    (fun f c =>
       {| fdc_id := food_fdc_id f;
          description := food_description f;
          category := default "Unknown" (c ≫= category_description);
          ingredients := [] |})
    df_food_filtered df_category.

(** The row function of [df_brand_info.apply(create_brand_prefix, axis=1)],
    on the two cells it reads, after their [fillna('')]. *)
Definition create_brand_prefix (brand_owner brand_name : string) : string :=
  if Py.truthy brand_name && negb (String.eqb brand_name brand_owner)
  then brand_owner +:+ " - " +:+ brand_name +:+ ": "
  else if Py.truthy brand_owner
  then brand_owner +:+ ": "
  else "".

(** A row of [df_brand_info[['fdc_id', 'brand_prefix', 'ingredients']]]. *)
Record brand_info := {
  bi_fdc_id : Z;
  bi_brand_prefix : string;
  bi_ingredients : list string
}.

Definition df_brand_info (df_branded : list branded_food) : list brand_info :=
  (fun b =>
     {| bi_fdc_id := branded_fdc_id b;
        bi_brand_prefix :=
          create_brand_prefix (default "" (brand_owner b)) (default "" (brand_name b));
        bi_ingredients := process_ingredients (branded_ingredients b) |})
  <$> df_branded.

(** The left merge with the brand rows, the two fills and the new
    description; without branded_food.csv only the empty ingredient lists. *)
Definition add_brand (df_food_filtered : list food_row)
    (df_branded : option (list branded_food)) : list food_row :=
  match df_branded with
  | Some df_branded =>
      Pd.merge_left
        (fun f b => bool_decide (fdc_id f = bi_fdc_id b))
        (fun f b =>
           {| fdc_id := fdc_id f;
              description := default "" (bi_brand_prefix <$> b) +:+ description f;
              category := category f;
              ingredients := default [] (bi_ingredients <$> b) |})
        df_food_filtered (df_brand_info df_branded)
  | None =>
      (fun f =>
         {| fdc_id := fdc_id f;
            description := description f;
            category := category f;
            ingredients := [] |}) <$> df_food_filtered
  end.

Definition df_food_filtered (df_food : list food) (df_category : list food_category)
    (df_branded : option (list branded_food)) : list food_row :=
  add_brand (add_category (filter_valid_types df_food) df_category) df_branded.

(** [set(df_food_filtered['fdc_id'])] *)
Definition all_valid_fdc_ids (df_food_filtered : list food_row) : gset Z :=
  list_to_set (fdc_id <$> df_food_filtered).

(** ** 4. Measurements in long form *)

(** A row of [df_fn_pivot_ready]; the label is [None] (NaN) when the
    nutrient id is not in nutrient.csv. *)
Record pivot_row := {
  pr_fdc_id : Z;
  pr_column_name : option string;
  pr_amount_std : float
}.

Definition same_cell (a b : pivot_row) : bool :=
  bool_decide (pr_fdc_id a = pr_fdc_id b)
  && bool_decide (pr_column_name a = pr_column_name b).

(** [df_fn_filtered] with [amount_std] and [column_name], then
    [drop_duplicates(subset=['fdc_id', 'column_name'])]. *)
Definition df_fn_pivot_ready (df_nutrient : list nutrient)
    (valid : gset Z) (df_food_nutrient : list food_nutrient) : list pivot_row :=
  Pd.drop_duplicates same_cell
    ((fun m =>
        {| pr_fdc_id := fn_fdc_id m;
           pr_column_name := id_to_column df_nutrient !! fn_nutrient_id m;
           pr_amount_std :=
             (fn_amount m * Py.map_float (id_to_converter df_nutrient) (fn_nutrient_id m))%float |})
     <$> filter (fun m => fn_fdc_id m ∈ valid) df_food_nutrient).

(** ** 5. The wide table and the sparse columns *)

(** The cell of [pivot] for food [f] under [c]: the amount of the row with
    that index and label, NaN when there is none. *)
Definition pivot_cell (l : list pivot_row) (f : Z) (c : string) : float :=
  default Py.NaN
    (pr_amount_std <$>
       head (filter (fun r => pr_fdc_id r = f ∧ pr_column_name r = Some c) l)).

(** [df.pivot(index='fdc_id', columns='column_name', values='amount_std')]:
    one row for each food id of the long table, one column for each label.
    Rows under the NaN label give their food a row and no column that
    [reindex] keeps. *)
Definition pivot (l : list pivot_row) : Pd.wide :=
  let cols := Pd.sorted_unique_str (omap pr_column_name l) in
  {| Pd.columns := cols;
     Pd.rows := (fun f => (f, Pd.row_of cols (pivot_cell l f)))
                <$> Pd.sorted_unique_Z (pr_fdc_id <$> l) |}.

Definition df_wide_all_cols (all_nutrient_columns : list string)
    (l : list pivot_row) : Pd.wide :=
  Pd.fillna Py.SENTINEL
    (Pd.reindex_columns all_nutrient_columns Py.SENTINEL (pivot l)).

(** [df_wide_all_cols] from the input tables and the valid food ids. *)
Definition wide_table (df_nutrient : list nutrient) (valid : gset Z)
    (df_food_nutrient : list food_nutrient) : Pd.wide :=
  df_wide_all_cols (all_nutrient_columns df_nutrient)
    (df_fn_pivot_ready df_nutrient valid df_food_nutrient).

(** [missing_count > threshold] with [threshold = total_foods / 2.0]: the
    comparison of an integer with a float is exact, and so is the half of a
    row count, hence the test is the one on rationals. *)
Definition exceeds_threshold (missing_count total_foods : nat) : bool :=
  negb (QArith_base.Qle_bool
          (QArith_base.inject_Z (Z.of_nat missing_count))
          (QArith_base.Qmake (Z.of_nat total_foods) 2)).

(** The loop over [all_nutrient_columns] that fills [columns_to_drop]. *)
Definition columns_to_drop (all_nutrient_columns : list string)
    (df : Pd.wide) : list string :=
  let total_foods := length (Pd.rows df) in
  filter (fun col => exceeds_threshold (Pd.count_eq col Py.SENTINEL df) total_foods = true)
         all_nutrient_columns.

Definition final_nutrient_columns (all_nutrient_columns : list string)
    (df : Pd.wide) : list string :=
  match columns_to_drop all_nutrient_columns df with
  | [] => all_nutrient_columns
  | drop => filter (fun col => col ∉ drop) all_nutrient_columns
  end.

Definition df_wide_filtered (all_nutrient_columns : list string)
    (df : Pd.wide) : Pd.wide :=
  match columns_to_drop all_nutrient_columns df with
  | [] => df
  | drop => Pd.drop_columns drop df
  end.

(** ** 6. foods_per_100g.csv *)

(** A row of [df_100g]: the food columns and the nutrient cells. *)
Record row_100g := {
  r100_food : food_row;
  r100_nutrients : gmap string float
}.

(** An output frame: the nutrient columns in their order, after the fixed
    leading columns, and the rows. *)
Record table (R : Type) := {
  nutrient_header : list string;
  body : list R
}.
Arguments nutrient_header {R} _.
Arguments body {R} _.

(** [sort_values(by='description')]; rows with equal descriptions are left
    in their order. *)
Definition by_description (a b : row_100g) : Prop :=
  Pd.str_le (description (r100_food a)) (description (r100_food b)).

#[global] Instance by_description_dec a b : Decision (by_description a b).
Proof. unfold by_description. apply _. Defined.

(** The inner merge of the foods with the wide table on [fdc_id], the
    column order [cols_100g] and the sort. *)
Definition df_100g (foods : list food_row) (final_cols : list string)
    (wide : Pd.wide) : table row_100g :=
  {| nutrient_header := final_cols;
     body :=
       merge_sort by_description
         (Pd.merge_inner
            (fun f (r : Z * gmap string float) => bool_decide (fdc_id f = r.1))
            (fun f r => {| r100_food := f; r100_nutrients := r.2 |})
            foods (Pd.rows wide)) |}.

(** ** 7. foods_per_serving.csv *)

(** The three conditions on a portion row. *)
Definition valid_portion (valid : gset Z) (p : food_portion) : bool :=
  bool_decide (portion_fdc_id p ∈ valid)
  && Py.notna (portion_gram_weight p)
  && PrimFloat.ltb 0 (portion_gram_weight p).

Definition df_portion_filtered (valid : gset Z) (df_portion : list food_portion)
    : list food_portion :=
  filter (fun p => valid_portion valid p = true) df_portion.

(** The inner merge with the measure units on [measure_unit_id = id]. *)
Definition df_portion_full (portions : list food_portion)
    (df_measure_unit : list measure_unit) : list (food_portion * measure_unit) :=
  Pd.merge_inner
    (fun p u => bool_decide (portion_measure_unit_id p = measure_unit_id u))
    pair portions df_measure_unit.

(** A row of [df_servings_base]. *)
Record serving := {
  sv_fdc_id : Z;
  serving_description : string;
  serving_size_g : float
}.

Definition same_serving (a b : serving) : bool :=
  bool_decide (sv_fdc_id a = sv_fdc_id b)
  && String.eqb (serving_description a) (serving_description b)
  && PrimFloat.eqb (serving_size_g a) (serving_size_g b).

(** The lambda of the scaling loop, on the cell [v] of a row whose serving
    weighs [g] grams. *)
Definition scale (v g : float) : float :=
  if negb (PrimFloat.eqb v Py.SENTINEL) then (v * (g / 100.0))%float
  else Py.SENTINEL.

(** The scaling loop on one row of [df_per_serving]: each column of
    [final_cols] that the row has is replaced by its scaled value. *)
Definition scale_row (final_cols : list string) (g : float)
    (cells : gmap string float) : gmap string float :=
  foldl (fun cells col =>
           match cells !! col with
           | Some v => <[col := scale v g]> cells
           | None => cells
           end) cells final_cols.

(** A row of [df_per_serving_final]. *)
Record row_serving := {
  rs_food : food_row;
  rs_serving : serving;
  rs_nutrients : gmap string float
}.

(** [sort_values(by=['description', 'serving_description'])] *)
Definition by_description_serving (a b : row_serving) : Prop :=
  if String.eqb (description (rs_food a)) (description (rs_food b))
  then Pd.str_le (serving_description (rs_serving a)) (serving_description (rs_serving b))
  else Pd.str_le (description (rs_food a)) (description (rs_food b)).

#[global] Instance by_description_serving_dec a b :
  Decision (by_description_serving a b).
Proof. unfold by_description_serving. destruct (String.eqb _ _); apply _. Defined.

(** ** Messages and effects of a run *)

Inductive message :=
| ErrorMissingFile (filename : string)
| WarningBrandedNotFound
| ErrorNoFoods
| WarningNoPortion
| AllDone.

(** What a run does that can be seen from outside, in order: the lines it
    prints that tell how it went (progress lines are left out) and the
    files it writes. *)
Inductive event :=
| Print (m : message)
| WriteFoodsPer100g (t : table row_100g)
| WriteFoodsPerServing (t : table row_serving).

Section Script.

(** [str(x)] of a float inside an f-string, the shortest decimal that
    reads back as [x]; it is computed for whole numbers only
    ([Py.str_whole]) and left open for the other floats. *)
Variable float_str : float -> string.

(** [f"{x}"] for a number of a data frame row. *)
Definition format_num (x : Py.num) : string :=
  match x with
  | Py.Int z => pretty z
  | Py.Float f => default (float_str f) (Py.str_whole f)
  end.

(** The lambda that fills [serving_description], on a row of
    [df_portion_full]. *)
Definition make_serving_description (row : food_portion * measure_unit) : string :=
  match portion_description row.1 with
  | Some d =>
      if bool_decide (Py.strip (list_ascii_of_string d) ≠ []) then d
      else format_num (portion_amount row.1) +:+ " " +:+ measure_unit_name row.2
  | None => format_num (portion_amount row.1) +:+ " " +:+ measure_unit_name row.2
  end.

(** [df_servings_base]: the three columns, renamed and deduplicated. *)
Definition df_servings_base (full : list (food_portion * measure_unit))
    : list serving :=
  Pd.drop_duplicates same_serving
    ((fun row =>
        {| sv_fdc_id := portion_fdc_id row.1;
           serving_description := make_serving_description row;
           serving_size_g := portion_gram_weight row.1 |}) <$> full).

(** [df_per_serving] after the scaling loop: the inner merge of the
    servings with the wide table on [fdc_id], each row scaled. *)
Definition df_per_serving (servings : list serving) (final_cols : list string)
    (wide : Pd.wide) : list (serving * gmap string float) :=
  Pd.merge_inner
    (fun s (r : Z * gmap string float) => bool_decide (sv_fdc_id s = r.1))
    (fun s r => (s, scale_row final_cols (serving_size_g s) r.2))
    servings (Pd.rows wide).

(** [df_per_serving_final]: the inner merge with the foods, the column
    order and the sort. *)
Definition df_per_serving_final (foods : list food_row) (final_cols : list string)
    (per_serving : list (serving * gmap string float)) : table row_serving :=
  {| nutrient_header := final_cols;
     body :=
       merge_sort by_description_serving
         (Pd.merge_inner
            (fun f (s : serving * gmap string float) =>
               bool_decide (fdc_id f = sv_fdc_id s.1))
            (fun f s => {| rs_food := f; rs_serving := s.1; rs_nutrients := s.2 |})
            foods per_serving) |}.

(** Sections 2 to 7 of the script, once the six required tables are read. *)
Definition process (df_food : list food) (df_nutrient : list nutrient)
    (df_food_nutrient : list food_nutrient) (df_portion : list food_portion)
    (df_measure_unit : list measure_unit) (df_category : list food_category)
    (df_branded : option (list branded_food)) : list event :=
  let all_cols := all_nutrient_columns df_nutrient in
  let foods := df_food_filtered df_food df_category df_branded in
  let valid := all_valid_fdc_ids foods in
  if decide (valid = ∅) then [Print ErrorNoFoods]
  else
    let wide_all := wide_table df_nutrient valid df_food_nutrient in
    let final_cols := final_nutrient_columns all_cols wide_all in
    let wide := df_wide_filtered all_cols wide_all in
    WriteFoodsPer100g (df_100g foods final_cols wide) ::
    match df_portion_filtered valid df_portion with
    | [] => [Print WarningNoPortion; Print AllDone]
    | portions =>
        let servings := df_servings_base (df_portion_full portions df_measure_unit) in
        [WriteFoodsPerServing
           (df_per_serving_final foods final_cols
              (df_per_serving servings final_cols wide));
         Print AllDone]
    end.

(** [create_nutrition_csvs_final]: the six required files are read in
    this order and the first one that is missing ends the run. *)
Definition create_nutrition_csvs_final (dir : folder) : list event :=
  match food_csv dir with
  | None => [Print (ErrorMissingFile "food.csv")]
  | Some df_food =>
  match nutrient_csv dir with
  | None => [Print (ErrorMissingFile "nutrient.csv")]
  | Some df_nutrient =>
  match food_nutrient_csv dir with
  | None => [Print (ErrorMissingFile "food_nutrient.csv")]
  | Some df_food_nutrient =>
  match food_portion_csv dir with
  | None => [Print (ErrorMissingFile "food_portion.csv")]
  | Some df_portion =>
  match measure_unit_csv dir with
  | None => [Print (ErrorMissingFile "measure_unit.csv")]
  | Some df_measure_unit =>
  match food_category_csv dir with
  | None => [Print (ErrorMissingFile "food_category.csv")]
  | Some df_category =>
      match branded_food_csv dir with
      | None => [Print WarningBrandedNotFound]
      | Some _ => []
      end ++
      process df_food df_nutrient df_food_nutrient df_portion
        df_measure_unit df_category (branded_food_csv dir)
  end end end end end end.

End Script.

(** ** Reading a run *)

(** The table a run wrote to foods_per_100g.csv, if it wrote one. *)
Definition written_100g (run : list event) : option (table row_100g) :=
  head (omap (fun e => match e with WriteFoodsPer100g t => Some t | _ => None end) run).

(** The table a run wrote to foods_per_serving.csv, if it wrote one. *)
Definition written_serving (run : list event) : option (table row_serving) :=
  head (omap (fun e => match e with WriteFoodsPerServing t => Some t | _ => None end) run).

(** ** The sparsity rule in the words of the specification

    "The fraction of filtered foods whose value for the column is the
    sentinel is at most 0.5", for a column [c], the filtered food ids
    [valid] and the wide table.  The words leave open what the value of a
    food without a row is, so both readings are written down. *)

(** The foods of [valid] that have a row whose cell under [c] is the
    sentinel. *)
Definition foods_with_sentinel (valid : list Z) (wide : Pd.wide) (c : string)
    : list Z :=
  filter (fun f =>
            Exists (fun r : Z * gmap string float =>
                      r.1 = f /\ PrimFloat.eqb (default Py.NaN (r.2 !! c)) Py.SENTINEL = true)
                   (Pd.rows wide))
         valid.

(** The foods of [valid] that have no row with a cell under [c] other than
    the sentinel: a food without a row counts as all sentinel. *)
Definition foods_without_value (valid : list Z) (wide : Pd.wide) (c : string)
    : list Z :=
  filter (fun f =>
            Forall (fun r : Z * gmap string float =>
                      r.1 = f -> PrimFloat.eqb (default Py.NaN (r.2 !! c)) Py.SENTINEL = true)
                   (Pd.rows wide))
         valid.

(** The rule as the specification words it, over a way [sentinel_foods] of
    telling the foods that hold the sentinel under a column. *)
Definition spec_sparsity_rule (sentinel_foods : string -> list Z)
    (valid : list Z) (cols header : list string) : Prop :=
  forall c, c ∈ cols ->
    (c ∈ header <-> (2 * length (sentinel_foods c) <= length valid)%nat).

(** ** Sample folders *)

Module Sample.

(** [str] of a float for folders whose portion amounts are whole numbers. *)
Definition float_str : float -> string := fun _ => "".

Definition nutrients : list nutrient :=
  [ {| nutrient_id := 10; nutrient_name := "Sodium"; nutrient_unit_name := "MG" |};
    {| nutrient_id := 11; nutrient_name := "Energy"; nutrient_unit_name := "KCAL" |};
    {| nutrient_id := 12; nutrient_name := "Iron"; nutrient_unit_name := "MG" |} ].

Definition measurements : list food_nutrient :=
  [ {| fn_fdc_id := 1; fn_nutrient_id := 10; fn_amount := 500 |};
    {| fn_fdc_id := 1; fn_nutrient_id := 11; fn_amount := 12 |};
    {| fn_fdc_id := 4; fn_nutrient_id := 12; fn_amount := 3 |};
    {| fn_fdc_id := 4; fn_nutrient_id := 11; fn_amount := 80 |};
    {| fn_fdc_id := 3; fn_nutrient_id := 11; fn_amount := 7 |} ].

Definition foods : list food :=
  [ {| food_fdc_id := 1; food_description := "Bar";
       food_data_type := "branded_food"; food_category_id := None |};
    {| food_fdc_id := 2; food_description := "Apple";
       food_data_type := "sr_legacy_food"; food_category_id := Some 7 |};
    {| food_fdc_id := 3; food_description := "Draft";
       food_data_type := "experimental_food"; food_category_id := Some 7 |};
    {| food_fdc_id := 4; food_description := "Bread";
       food_data_type := "foundation_food"; food_category_id := Some 7 |} ].

Definition portions : list food_portion :=
  [ {| portion_fdc_id := 1; portion_measure_unit_id := 5;
       portion_gram_weight := 50; portion_description := None;
       portion_amount := Py.Int 1 |};
    {| portion_fdc_id := 4; portion_measure_unit_id := 5;
       portion_gram_weight := 100; portion_description := Some "1 slice";
       portion_amount := Py.Int 1 |};
    {| portion_fdc_id := 2; portion_measure_unit_id := 5;
       portion_gram_weight := 180; portion_description := None;
       portion_amount := Py.Int 1 |} ].

Definition units : list measure_unit :=
  [ {| measure_unit_id := 5; measure_unit_name := "cup" |} ].

Definition categories : list food_category :=
  [ {| category_id := 7; category_description := Some "Staples" |} ].

Definition brands : list branded_food :=
  [ {| branded_fdc_id := 1; brand_owner := Some "Acme"; brand_name := Some "Zesty";
       branded_ingredients := Some "Oats, Honey and Salt" |} ].

(** Four foods, three of a valid type; food 2 has no measurement, food 1 has
    none for iron. *)
Definition dir : folder :=
  {| food_csv := Some foods; nutrient_csv := Some nutrients;
     food_nutrient_csv := Some measurements; food_portion_csv := Some portions;
     measure_unit_csv := Some units; food_category_csv := Some categories;
     branded_food_csv := Some brands |}.

(** The same folder with portions that are all discarded: a food of no
    valid type, a missing weight and a weight of zero. *)
Definition discarded_portions : list food_portion :=
  [ {| portion_fdc_id := 3; portion_measure_unit_id := 5;
       portion_gram_weight := 30; portion_description := None;
       portion_amount := Py.Int 1 |};
    {| portion_fdc_id := 1; portion_measure_unit_id := 5;
       portion_gram_weight := Py.NaN; portion_description := None;
       portion_amount := Py.Int 1 |};
    {| portion_fdc_id := 4; portion_measure_unit_id := 5;
       portion_gram_weight := 0; portion_description := None;
       portion_amount := Py.Int 2 |} ].

(** Three valid foods of which only food 1 is measured, for nutrient A and
    not for nutrient B. *)
Definition sparse_foods : list food :=
  [ {| food_fdc_id := 1; food_description := "Oats";
       food_data_type := "sr_legacy_food"; food_category_id := None |};
    {| food_fdc_id := 2; food_description := "Rice";
       food_data_type := "sr_legacy_food"; food_category_id := None |};
    {| food_fdc_id := 3; food_description := "Rye";
       food_data_type := "sr_legacy_food"; food_category_id := None |} ].

Definition sparse_nutrients : list nutrient :=
  [ {| nutrient_id := 10; nutrient_name := "A"; nutrient_unit_name := "G" |};
    {| nutrient_id := 11; nutrient_name := "B"; nutrient_unit_name := "G" |} ].

Definition sparse_measurements : list food_nutrient :=
  [ {| fn_fdc_id := 1; fn_nutrient_id := 10; fn_amount := 5 |} ].

Definition sparse_portions : list food_portion :=
  [ {| portion_fdc_id := 1; portion_measure_unit_id := 5;
       portion_gram_weight := 50; portion_description := None;
       portion_amount := Py.Int 1 |} ].

Definition sparse_dir : folder :=
  {| food_csv := Some sparse_foods; nutrient_csv := Some sparse_nutrients;
     food_nutrient_csv := Some sparse_measurements;
     food_portion_csv := Some sparse_portions;
     measure_unit_csv := Some units; food_category_csv := Some [];
     branded_food_csv := None |}.

End Sample.

(** ** Reading the tables back

    Definitions that the statements about the wide table and about the
    ingredients use. *)

(** The key of [drop_duplicates(subset=['fdc_id', 'column_name'])]. *)
Definition cell_key (r : pivot_row) : Z * option string :=
  (pr_fdc_id r, pr_column_name r).

(** The row of the long table that a measurement gives. *)
Definition long_row (ns : list nutrient) (m : food_nutrient) : pivot_row :=
  {| pr_fdc_id := fn_fdc_id m;
     pr_column_name := id_to_column ns !! fn_nutrient_id m;
     pr_amount_std :=
       (fn_amount m * Py.map_float (id_to_converter ns) (fn_nutrient_id m))%float |}.

(** The first measurement of food [f], in the order of food_nutrient.csv,
    whose nutrient id maps to column [c]. *)
Definition first_measurement (ns : list nutrient) (fns : list food_nutrient)
    (f : Z) (c : string) : option food_nutrient :=
  head (filter (fun m => fn_fdc_id m = f
                         /\ id_to_column ns !! fn_nutrient_id m = Some c) fns).

(** The standardized amount of that measurement after [fillna(-1.0)], or
    -1.0 without one. *)
Definition expected_cell (ns : list nutrient) (fns : list food_nutrient)
    (f : Z) (c : string) : float :=
  match first_measurement ns fns f c with
  | Some m =>
      Py.fillna Py.SENTINEL
        (fn_amount m * Py.map_float (id_to_converter ns) (fn_nutrient_id m))%float
  | None => Py.SENTINEL
  end.


(** Membership in a list that is written out. *)
Ltac elem_of_list_tac :=
  repeat first [apply list_elem_of_here | apply list_elem_of_further].

(** A second sample: the measurements of food 1 repeat a nutrient, once
    with an empty amount first. *)
Module Repeated.

Definition measurements : list food_nutrient :=
  [ {| fn_fdc_id := 1; fn_nutrient_id := 10; fn_amount := Py.NaN |};
    {| fn_fdc_id := 1; fn_nutrient_id := 10; fn_amount := 500 |};
    {| fn_fdc_id := 1; fn_nutrient_id := 11; fn_amount := 12 |};
    {| fn_fdc_id := 1; fn_nutrient_id := 11; fn_amount := 99 |};
    {| fn_fdc_id := 4; fn_nutrient_id := 12; fn_amount := 3 |};
    {| fn_fdc_id := 4; fn_nutrient_id := 11; fn_amount := 80 |};
    {| fn_fdc_id := 4; fn_nutrient_id := 10; fn_amount := 250 |} ].

Definition dir : folder :=
  {| food_csv := Some Sample.foods; nutrient_csv := Some Sample.nutrients;
     food_nutrient_csv := Some measurements; food_portion_csv := Some Sample.portions;
     measure_unit_csv := Some Sample.units; food_category_csv := Some Sample.categories;
     branded_food_csv := Some Sample.brands |}.

(** The tables that a run on this folder writes. *)
Definition foods : list food_row :=
  df_food_filtered Sample.foods Sample.categories (Some Sample.brands).

Definition wide : Pd.wide :=
  wide_table Sample.nutrients (all_valid_fdc_ids foods) measurements.

Definition final_cols : list string :=
  final_nutrient_columns (all_nutrient_columns Sample.nutrients) wide.

Definition per_100g : table row_100g :=
  df_100g foods final_cols
    (df_wide_filtered (all_nutrient_columns Sample.nutrients) wide).

Definition per_serving : table row_serving :=
  df_per_serving_final foods final_cols
    (df_per_serving
       (df_servings_base Sample.float_str
          (df_portion_full
             (df_portion_filtered (all_valid_fdc_ids foods) Sample.portions)
             Sample.units))
       final_cols
       (df_wide_filtered (all_nutrient_columns Sample.nutrients) wide)).

End Repeated.

(** * Properties *)

(** ** Binary64 facts used by the scaling step *)

Module FloatFacts.

Lemma digits2_pos_shift52 (m : positive) :
  Zpos (digits2_pos (m * 4503599627370496)) = Zpos (digits2_pos m) + 52.
Proof.
  rewrite !Pos.mul_xO_r, Pos.mul_1_r. cbn [digits2_pos].
  rewrite !Pos2Z.inj_succ. lia.
Qed.

(** Multiplying a binary64 number by one is exact: the product of the
    mantissa with 2^52 is shifted back by 52 bits without a remainder. *)
Lemma SF64mul_one (x : spec_float) :
  valid_binary x = true ->
  SF64mul x (S754_finite false 4503599627370496 (-52)) = x.
Proof.
  destruct x as [s|s| |s m e]; intros Hv;
    [destruct s; reflexivity | destruct s; reflexivity | reflexivity | ].
  cbn [SpecFloat.valid_binary] in Hv. unfold bounded, canonical_mantissa in Hv.
  apply andb_prop in Hv as [Hc He]. apply Z.eqb_eq in Hc.
  change (fexp prec emax (Z.pos (digits2_pos m) + e) = e) in Hc.
  change ((e <=? emax - prec) = true) in He.
  unfold SF64mul, SFmul. rewrite xorb_false_r.
  unfold binary_round_aux.
  unfold shr_fexp at 1. unfold Zdigits2.
  rewrite digits2_pos_shift52.
  replace (Z.pos (digits2_pos m) + 52 + (e + -52))
    with (Z.pos (digits2_pos m) + e) by lia.
  fold prec emax. rewrite Hc.
  replace (e - (e + -52)) with 52 by lia.
  rewrite !Pos.mul_xO_r, Pos.mul_1_r.
  cbn [SpecFloat.shr SpecFloat.shr_record_of_loc SpecFloat.iter_pos SpecFloat.shr_1 orb fst snd].
  cbn [SpecFloat.shr_m SpecFloat.loc_of_shr_record SpecFloat.round_nearest_even].
  replace (e + -52 + 52) with e by lia.
  unfold shr_fexp, Zdigits2.
  change (fexp prec emax (Z.pos (digits2_pos m) + e) - e) with
    (fexp prec emax (Z.pos (digits2_pos m) + e) - e)%Z.
  rewrite Hc, Z.sub_diag.
  cbn [SpecFloat.shr SpecFloat.shr_record_of_loc SpecFloat.shr_m]. rewrite He. reflexivity.
Qed.

Lemma mul_one_r (x : float) : (x * 1)%float = x.
Proof.
  apply Prim2SF_inj. rewrite mul_spec.
  change (Prim2SF 1) with (S754_finite false 4503599627370496 (-52)).
  apply SF64mul_one, Prim2SF_valid.
Qed.

Lemma hundred_over_hundred : (100.0 / 100.0)%float = 1%float.
Proof. reflexivity. Qed.

Lemma sentinel_eqb : PrimFloat.eqb Py.SENTINEL Py.SENTINEL = true.
Proof. reflexivity. Qed.

Lemma fillna_nan (v : float) : Py.fillna v Py.NaN = v.
Proof. reflexivity. Qed.

End FloatFacts.

(** ** The unit table *)

Lemma UNIT_TO_GRAM_FACTOR_lookup (u : string) :
  UNIT_TO_GRAM_FACTOR !! u =
    if decide (u = "G") then Some 1.0%float
    else if decide (u = "MG") then Some 0.001%float
    else if decide (u = "UG") then Some 1e-6%float
    else None.
Proof.
  unfold UNIT_TO_GRAM_FACTOR. cbn [list_to_map foldr fst snd curry uncurry].
  rewrite !lookup_insert, lookup_empty.
  repeat case_decide; subst; try reflexivity; congruence.
Qed.

Lemma in_unit_table (u : string) :
  is_Some (UNIT_TO_GRAM_FACTOR !! u) <-> u ∈ ["G"; "MG"; "UG"].
Proof.
  rewrite UNIT_TO_GRAM_FACTOR_lookup, !elem_of_cons, elem_of_nil.
  repeat case_decide; split; intros H'; eauto;
    try (destruct H' as [? H']; discriminate); tauto.
Qed.

(** C3. The conversion factor of a nutrient is 1.0 for the gram unit [G],
    0.001 for the milligram unit [MG], 1e-6 for the microgram unit [UG] and
    1.0 for every other unit; the column name is ["<name> (G)"] for the three
    convertible units and ["<name> (<unit>)"] with the unit's own label
    otherwise. *)
Theorem conversion_factor_and_column_name (n : nutrient) :
  conversion_factor n =
    (if decide (nutrient_unit_name n = "G") then 1.0%float
     else if decide (nutrient_unit_name n = "MG") then 0.001%float
     else if decide (nutrient_unit_name n = "UG") then 1e-6%float
     else 1.0%float)
  /\ column_name n =
       nutrient_name n +:+ " (" +:+
       (if decide (nutrient_unit_name n ∈ ["G"; "MG"; "UG"]) then "G"
        else nutrient_unit_name n) +:+ ")".
Proof.
  unfold column_name, final_unit, conversion_factor, Py.map_float.
  rewrite UNIT_TO_GRAM_FACTOR_lookup.
  split.
  - repeat case_decide; reflexivity.
  - rewrite <- UNIT_TO_GRAM_FACTOR_lookup.
    destruct (decide (is_Some _)) as [Hs|Hs], (decide (_ ∈ _)) as [Hi|Hi];
      try reflexivity; exfalso; apply in_unit_table in Hs || apply Hs, in_unit_table;
      tauto.
Qed.

(** C10. The lookup of the unit is an exact, case-sensitive match with the
    keys [G], [MG] and [UG]: a unit spelled in any other way has factor 1.0
    and keeps its own label in the column name. *)
Theorem unit_lookup_is_exact_match (n : nutrient) :
  nutrient_unit_name n ≠ "G" ->
  nutrient_unit_name n ≠ "MG" ->
  nutrient_unit_name n ≠ "UG" ->
  UNIT_TO_GRAM_FACTOR !! nutrient_unit_name n = None
  /\ conversion_factor n = 1.0%float
  /\ final_unit n = nutrient_unit_name n
  /\ column_name n = nutrient_name n +:+ " (" +:+ nutrient_unit_name n +:+ ")".
Proof.
  intros HG HMG HUG.
  assert (Hl : UNIT_TO_GRAM_FACTOR !! nutrient_unit_name n = None).
  { rewrite UNIT_TO_GRAM_FACTOR_lookup. repeat case_decide; congruence. }
  assert (Hu : final_unit n = nutrient_unit_name n).
  { unfold final_unit. rewrite Hl. case_decide as H; [destruct H; discriminate | reflexivity]. }
  repeat split; try assumption.
  - unfold conversion_factor, Py.map_float. rewrite Hl. reflexivity.
  - unfold column_name. rewrite Hu. reflexivity.
Qed.

Lemma unit_lookup_is_exact_match_witness :
  let lower_g := {| nutrient_id := 1; nutrient_name := "Protein"; nutrient_unit_name := "g" |} in
  let lower_mg := {| nutrient_id := 2; nutrient_name := "Sodium"; nutrient_unit_name := "mg" |} in
  let word := {| nutrient_id := 3; nutrient_name := "Fiber"; nutrient_unit_name := "gram" |} in
  (conversion_factor lower_g = 1.0%float /\ column_name lower_g = "Protein (g)")
  /\ (conversion_factor lower_mg = 1.0%float /\ column_name lower_mg = "Sodium (mg)")
  /\ (conversion_factor word = 1.0%float /\ column_name word = "Fiber (gram)").
Proof.
  intros lower_g lower_mg word.
  destruct (unit_lookup_is_exact_match lower_g) as (_ & Hg1 & _ & Hg2);
    [discriminate | discriminate | discriminate |].
  destruct (unit_lookup_is_exact_match lower_mg) as (_ & Hm1 & _ & Hm2);
    [discriminate | discriminate | discriminate |].
  destruct (unit_lookup_is_exact_match word) as (_ & Hw1 & _ & Hw2);
    [discriminate | discriminate | discriminate |].
  exact (conj (conj Hg1 Hg2) (conj (conj Hm1 Hm2) (conj Hw1 Hw2))).
Defined.

(** ** The matcher *)

Module ReFacts.



(** The scan ends before its fuel does: any fuel above the length of the
    input gives the same pieces. *)
Lemma split_from_fuel (r : Re.regex) (fuel fuel' : nat) :
  forall s cur,
    (length s < fuel)%nat -> (length s < fuel')%nat ->
    Re.split_from fuel r s cur = Re.split_from fuel' r s cur.
Proof.
  revert fuel'. induction fuel as [|fuel IH]; intros fuel' s cur Hf Hf'; [lia |].
  destruct fuel' as [|fuel']; [lia |].
  destruct s as [|c s]; [reflexivity |]. cbn [Re.split_from].
  destruct (Re.match_prefix r (c :: s)) as [rest|].
  - destruct (length rest <? length (c :: s))%nat eqn:Hlt.
    + apply Nat.ltb_lt in Hlt. f_equal. apply IH; cbn in *; lia.
    + apply IH; cbn in *; lia.
  - apply IH; cbn in *; lia.
Qed.

End ReFacts.

(** ** Ingredients *)

(** The parser on further inputs: a space before the word is needed for a
    split at [and]; empty fragments between separators are dropped. *)
Example process_ingredients_samples :
  process_ingredients (Some "sand and  ANDes,(x)") = ["sand"; "andes"; "x"]
  /\ process_ingredients (Some "a ,b and") = ["a"; "b and"]
  /\ process_ingredients (Some "a,,b") = ["a"; "b"]
  /\ process_ingredients (Some " and ") = []
  /\ process_ingredients (Some "(a) and b") = ["a"; "and b"]
  /\ process_ingredients (Some "") = []
  /\ process_ingredients None = [].
Proof. repeat split; vm_compute; reflexivity. Qed.


(** C4. On ["Water, Sugar (Cane) and Salt"] the parser returns
    [water, sugar, cane, and salt]: the alternative for a parenthesis takes
    the space after [")"], so the [\s+and\s+] alternative, which needs a
    space before the word, never matches there and the last fragment keeps
    its ["and "].  Without the parentheses the same words are split at
    [" and "]. *)
Theorem process_ingredients_paren_then_and :
  process_ingredients (Some "Water, Sugar (Cane) and Salt")
    = ["water"; "sugar"; "cane"; "and salt"]
  /\ process_ingredients (Some "Water, Sugar (Cane) and Salt")
       ≠ ["water"; "sugar"; "cane"; "salt"]
  /\ Re.match_prefix ingredient_pattern (list_ascii_of_string ") and salt")
       = Some (list_ascii_of_string "and salt")
  /\ process_ingredients (Some "Water, Sugar and Salt") = ["water"; "sugar"; "salt"].
Proof.
  assert (H : process_ingredients (Some "Water, Sugar (Cane) and Salt")
              = ["water"; "sugar"; "cane"; "and salt"]) by (vm_compute; reflexivity).
  split; [exact H |]. split; [rewrite H; discriminate |].
  split; vm_compute; reflexivity.
Qed.

(** ** Brand prefix *)

Lemma truthy_spec (s : string) : Py.truthy s = true <-> s ≠ "".
Proof. destruct s; simpl; split; congruence. Qed.

(** C5. The brand prefix is ["<owner> - <name>: "] when the brand name is
    not empty and differs from the owner, else ["<owner>: "] when the owner
    is not empty, else the empty string; so (Acme, Acme) gives ["Acme: "],
    (Acme, Zesty) gives ["Acme - Zesty: "] and two empty strings give [""]. *)
Theorem create_brand_prefix_rule (owner name : string) :
  create_brand_prefix owner name =
    (if decide (name ≠ "" /\ name ≠ owner) then owner +:+ " - " +:+ name +:+ ": "
     else if decide (owner ≠ "") then owner +:+ ": "
     else "")
  /\ create_brand_prefix "Acme" "Acme" = "Acme: "
  /\ create_brand_prefix "Acme" "Zesty" = "Acme - Zesty: "
  /\ create_brand_prefix "" "" = "".
Proof.
  split; [| repeat split; reflexivity].
  unfold create_brand_prefix.
  destruct (decide (name ≠ "" /\ name ≠ owner)) as [[Hn Hne]|Hnot].
  - apply truthy_spec in Hn. apply String.eqb_neq in Hne.
    rewrite Hn, Hne. reflexivity.
  - assert (Hb : Py.truthy name && negb (String.eqb name owner) = false).
    { destruct (Py.truthy name) eqn:Hn, (String.eqb name owner) eqn:He;
        try reflexivity.
      exfalso. apply Hnot. split; [apply truthy_spec, Hn | apply String.eqb_neq, He]. }
    rewrite Hb.
    destruct (decide (owner ≠ "")) as [Ho|Ho].
    + apply truthy_spec in Ho. rewrite Ho. reflexivity.
    + destruct owner; [reflexivity | exfalso; apply Ho; discriminate].
Qed.

(** ** Serving descriptions *)

Section Blank.





End Blank.


(** In a column of floats the amount one is [1.0], and the description made
    of it reads ["1.0 cup"]. *)
Lemma serving_description_float_amount (float_str : float -> string) f i g k :
  make_serving_description float_str
    ({| portion_fdc_id := f; portion_measure_unit_id := i;
        portion_gram_weight := g; portion_description := None;
        portion_amount := Py.Float 1.0%float |},
     {| measure_unit_id := k; measure_unit_name := "cup" |}) = "1.0 cup".
Proof. reflexivity. Qed.

(** ** Data frame operations *)

Module PdFacts.

Lemma elem_of_merge_inner {A B C} (same_key : A -> B -> bool)
    (join : A -> B -> C) (l : list A) (r : list B) (c : C) :
  c ∈ Pd.merge_inner same_key join l r <->
  exists a b, a ∈ l /\ b ∈ r /\ same_key a b = true /\ c = join a b.
Proof.
  unfold Pd.merge_inner. rewrite list_elem_of_bind. split.
  - intros (a & Hc & Ha). apply list_elem_of_fmap in Hc as (b & -> & Hb).
    apply list_elem_of_filter in Hb as [Hk Hb]. eauto 6.
  - intros (a & b & Ha & Hb & Hk & ->). exists a. split; [| exact Ha].
    apply list_elem_of_fmap. exists b. split; [reflexivity |].
    apply list_elem_of_filter. auto.
Qed.

Lemma elem_of_merge_sort {A} (R : relation A) `{!forall x y, Decision (R x y)}
    (l : list A) (x : A) :
  x ∈ merge_sort R l <-> x ∈ l.
Proof. rewrite (merge_sort_Permutation R l). reflexivity. Qed.

Lemma elem_of_drop_duplicates_from {A} (same : A -> A -> bool)
    (seen l : list A) (x : A) :
  x ∈ Pd.drop_duplicates_from same seen l -> x ∈ l.
Proof.
  revert seen. induction l as [|y l IH]; intros seen; simpl; [auto |].
  destruct (existsb (same y) seen).
  - intros H. right. eapply IH, H.
  - rewrite !elem_of_cons. intros [->|H]; [auto | right; eapply IH, H].
Qed.

Lemma elem_of_drop_duplicates {A} (same : A -> A -> bool) (l : list A) (x : A) :
  x ∈ Pd.drop_duplicates same l -> x ∈ l.
Proof. apply elem_of_drop_duplicates_from. Qed.

Lemma elem_of_sorted_unique_Z (l : list Z) (x : Z) :
  x ∈ Pd.sorted_unique_Z l <-> x ∈ l.
Proof.
  unfold Pd.sorted_unique_Z. rewrite elem_of_merge_sort. apply elem_of_remove_dups.
Qed.

Lemma elem_of_sorted_unique_str (l : list string) (x : string) :
  x ∈ Pd.sorted_unique_str l <-> x ∈ l.
Proof.
  unfold Pd.sorted_unique_str. rewrite elem_of_merge_sort. apply elem_of_remove_dups.
Qed.

Lemma row_of_lookup (cols : list string) (cell : string -> float) (c : string) :
  Pd.row_of cols cell !! c = if decide (c ∈ cols) then Some (cell c) else None.
Proof.
  unfold Pd.row_of. induction cols as [|x cols IH].
  - rewrite decide_False by apply not_elem_of_nil. apply lookup_empty.
  - rewrite fmap_cons, list_to_map_cons. cbn [fst snd].
    rewrite lookup_insert. destruct (decide (x = c)) as [->|Hx].
    + rewrite decide_True by left. reflexivity.
    + rewrite IH. destruct (decide (c ∈ cols)) as [Hc|Hc].
      * rewrite decide_True by (right; exact Hc). reflexivity.
      * rewrite decide_False; [reflexivity |].
        rewrite elem_of_cons. intros [->|?]; contradiction.
Qed.

(** A cell that the scaling leaves as it is keeps its value through the
    whole loop. *)
Lemma scale_row_fixed (cols : list string) (g : float)
    (cells : gmap string float) (c : string) (v : float) :
  scale v g = v ->
  cells !! c = Some v ->
  scale_row cols g cells !! c = Some v.
Proof.
  intros Hfix. unfold scale_row. revert cells.
  induction cols as [|col cols IH]; intros cells Hc; simpl; [exact Hc |].
  apply IH. destruct (cells !! col) as [w|] eqn:Hw; [| exact Hc].
  rewrite lookup_insert. destruct (decide (col = c)) as [->|Hne]; [| exact Hc].
  rewrite Hc in Hw. inversion Hw; subst w. rewrite Hfix. reflexivity.
Qed.

(** The scaling loop neither adds nor removes a column of a row. *)
Lemma scale_row_is_Some (cols : list string) (g : float)
    (cells : gmap string float) (c : string) :
  is_Some (scale_row cols g cells !! c) <-> is_Some (cells !! c).
Proof.
  unfold scale_row. revert cells.
  induction cols as [|col cols IH]; intros cells; simpl; [reflexivity |].
  rewrite IH. destruct (cells !! col) as [w|] eqn:Hw; [| reflexivity].
  rewrite lookup_insert. destruct (decide (col = c)) as [->|Hne]; [| reflexivity].
  rewrite Hw. split; eauto.
Qed.

End PdFacts.

(** ** The wide table *)

Module WideFacts.

(** Every row of the long table comes from a measurement of a valid food
    and carries its food id and the column of its nutrient id. *)
Lemma pivot_ready_origin (ns : list nutrient) (valid : gset Z)
    (fns : list food_nutrient) (r : pivot_row) :
  r ∈ df_fn_pivot_ready ns valid fns ->
  exists m, m ∈ fns /\ fn_fdc_id m ∈ valid
    /\ pr_fdc_id r = fn_fdc_id m
    /\ pr_column_name r = id_to_column ns !! fn_nutrient_id m.
Proof.
  unfold df_fn_pivot_ready. intros H.
  apply PdFacts.elem_of_drop_duplicates in H.
  apply list_elem_of_fmap in H as (m & -> & Hm).
  apply list_elem_of_filter in Hm as [Hv Hm]. eauto.
Qed.

(** The index of the pivot holds food ids of the long table only. *)
Lemma pivot_index (l : list pivot_row) (f : Z) (cells : gmap string float) :
  (f, cells) ∈ Pd.rows (pivot l) ->
  f ∈ pr_fdc_id <$> l
  /\ cells = Pd.row_of (Pd.columns (pivot l)) (pivot_cell l f).
Proof.
  unfold pivot. cbn [Pd.rows Pd.columns]. intros H.
  apply list_elem_of_fmap in H as (f' & Heq & Hf). inversion Heq; subst.
  rewrite PdFacts.elem_of_sorted_unique_Z in Hf. split; [exact Hf | reflexivity].
Qed.

(** [reindex] and [fillna] keep the index of the pivot. *)
Lemma wide_all_cols_index (cols : list string) (l : list pivot_row) :
  (Pd.rows (df_wide_all_cols cols l)).*1 = (Pd.rows (pivot l)).*1.
Proof.
  unfold df_wide_all_cols, Pd.fillna, Pd.reindex_columns. cbn [Pd.rows].
  rewrite <- !list_fmap_compose. apply list_fmap_ext. intros i [f cells] _.
  reflexivity.
Qed.

Lemma wide_all_cols_row (cols : list string) (l : list pivot_row)
    (f : Z) (cells : gmap string float) :
  (f, cells) ∈ Pd.rows (df_wide_all_cols cols l) ->
  f ∈ pr_fdc_id <$> l
  /\ forall c,
       cells !! c =
         if decide (c ∈ cols)
         then Some (Py.fillna Py.SENTINEL
                      (if decide (c ∈ Pd.columns (pivot l)) then pivot_cell l f c
                       else Py.SENTINEL))
         else None.
Proof.
  unfold df_wide_all_cols, Pd.fillna, Pd.reindex_columns. cbn [Pd.rows].
  intros H.
  apply list_elem_of_fmap in H as ([f1 c1] & Heq & H). cbn [fst snd] in Heq.
  apply list_elem_of_fmap in H as ([f0 c0] & Heq0 & H). cbn [fst snd] in Heq0.
  inversion Heq0; subst f1 c1. inversion Heq; subst f cells.
  apply pivot_index in H as [Hf ->]. split; [exact Hf |].
  intros c. rewrite lookup_fmap, !PdFacts.row_of_lookup.
  destruct (decide (c ∈ cols)); [| reflexivity].
  destruct (decide (c ∈ Pd.columns (pivot l))); reflexivity.
Qed.



(** A food without any measurement has no row in the wide table. *)
Lemma wide_table_index (ns : list nutrient) (valid : gset Z)
    (fns : list food_nutrient) (f : Z) (cells : gmap string float) :
  (f, cells) ∈ Pd.rows (wide_table ns valid fns) ->
  exists m, m ∈ fns /\ fn_fdc_id m = f /\ f ∈ valid.
Proof.
  intros Hrow. apply wide_all_cols_row in Hrow as [Hf _].
  apply list_elem_of_fmap in Hf as (r & -> & Hr).
  apply pivot_ready_origin in Hr as (m & Hm & Hv & Hid & _).
  exists m. rewrite Hid. auto.
Qed.

Lemma elem_of_final_nutrient_columns (cols : list string) (df : Pd.wide) (c : string) :
  c ∈ final_nutrient_columns cols df <->
  c ∈ cols /\ c ∉ columns_to_drop cols df.
Proof.
  unfold final_nutrient_columns.
  destruct (columns_to_drop cols df) as [|d ds] eqn:Hd.
  - split; [intros H; split; [exact H | apply not_elem_of_nil] | tauto].
  - rewrite list_elem_of_filter. tauto.
Qed.

Lemma elem_of_columns_to_drop (cols : list string) (df : Pd.wide) (c : string) :
  c ∈ columns_to_drop cols df <->
  c ∈ cols
  /\ exceeds_threshold (Pd.count_eq c Py.SENTINEL df) (length (Pd.rows df)) = true.
Proof. unfold columns_to_drop. rewrite list_elem_of_filter. tauto. Qed.

(** The rows of the filtered table are the rows of the wide table without
    the dropped columns. *)
Lemma wide_filtered_row (cols : list string) (df : Pd.wide)
    (f : Z) (cells' : gmap string float) :
  (f, cells') ∈ Pd.rows (df_wide_filtered cols df) <->
  exists cells, (f, cells) ∈ Pd.rows df
    /\ cells' = filter (fun kv : string * float => kv.1 ∉ columns_to_drop cols df) cells.
Proof.
  unfold df_wide_filtered.
  destruct (columns_to_drop cols df) as [|d ds] eqn:Hd.
  - assert (Hid : forall cells : gmap string float,
               filter (fun kv : string * float => kv.1 ∉ @nil string) cells = cells).
    { intros cells. apply map_filter_id. intros i x _. apply not_elem_of_nil. }
    split.
    + intros H. exists cells'. rewrite Hid. auto.
    + intros (cells & H & ->). rewrite Hid. exact H.
  - unfold Pd.drop_columns. cbn [Pd.rows]. rewrite list_elem_of_fmap. split.
    + intros ([f0 c0] & Heq & H). inversion Heq; subst. exists c0. auto.
    + intros (cells & H & ->). exists (f, cells). auto.
Qed.

Lemma filtered_cell_lookup (drop : list string) (cells : gmap string float) (c : string) :
  filter (fun kv : string * float => kv.1 ∉ drop) cells !! c =
    if decide (c ∈ drop) then None else cells !! c.
Proof.
  destruct (decide (c ∈ drop)) as [Hd|Hd].
  - apply map_lookup_filter_None. right. intros x _ Hx. exact (Hx Hd).
  - destruct (cells !! c) as [v|] eqn:Hv.
    + apply map_lookup_filter_Some. auto.
    + apply map_lookup_filter_None. left. exact Hv.
Qed.

End WideFacts.

(** ** The scaling step *)


Lemma scale_100 (v : float) :
  PrimFloat.eqb v Py.SENTINEL = false -> scale v 100.0%float = v.
Proof.
  intros Hv. unfold scale. rewrite Hv. cbn [negb].
  rewrite FloatFacts.hundred_over_hundred. apply FloatFacts.mul_one_r.
Qed.

(** C7. A serving of exactly 100.0 grams leaves every value other than the
    sentinel as it is: the factor 100.0 / 100.0 is 1.0 and the product with
    1.0 is exact, so the cell of the per-serving row equals the cell [V] of
    the food's row in the per-100g table. *)
Theorem scale_by_100g_is_identity (final_cols : list string)
    (servings : list serving) (wide : Pd.wide) (s : serving)
    (cells : gmap string float) (c : string) (V : float) :
  s ∈ servings ->
  (sv_fdc_id s, cells) ∈ Pd.rows wide ->
  serving_size_g s = 100.0%float ->
  cells !! c = Some V ->
  PrimFloat.eqb V Py.SENTINEL = false ->
  scale V (serving_size_g s) = V
  /\ (s, scale_row final_cols (serving_size_g s) cells)
       ∈ df_per_serving servings final_cols wide
  /\ scale_row final_cols (serving_size_g s) cells !! c = Some V.
Proof.
  intros Hs Hrow Hg Hc HV. rewrite Hg.
  pose proof (scale_100 V HV) as Hfix.
  split; [exact Hfix |]. split.
  - unfold df_per_serving. apply PdFacts.elem_of_merge_inner.
    exists s, (sv_fdc_id s, cells). rewrite Hg.
    repeat split; try assumption. apply bool_decide_eq_true_2. reflexivity.
  - apply PdFacts.scale_row_fixed; assumption.
Qed.

Lemma scale_by_100g_is_identity_witness :
  let s := {| sv_fdc_id := 1; serving_description := "100 g"; serving_size_g := 100.0%float |} in
  let cells : gmap string float := {[ "Protein (G)" := 12.5%float ]} in
  let wide := {| Pd.columns := ["Protein (G)"]; Pd.rows := [(1, cells)] |} in
  scale 12.5%float 100.0%float = 12.5%float
  /\ (s, scale_row ["Protein (G)"] 100.0%float cells) ∈ df_per_serving [s] ["Protein (G)"] wide
  /\ scale_row ["Protein (G)"] 100.0%float cells !! "Protein (G)" = Some 12.5%float.
Proof.
  intros s cells wide.
  apply (scale_by_100g_is_identity ["Protein (G)"] [s] wide s cells "Protein (G)" 12.5%float).
  - left.
  - left.
  - reflexivity.
  - reflexivity.
  - reflexivity.
Defined.

(** ** Inversion of a run *)

Section RunFacts.

Variable float_str : float -> string.

Lemma process_100g_inv df_food ns fns ps us cs b (t : table row_100g) :
  WriteFoodsPer100g t ∈ process float_str df_food ns fns ps us cs b ->
  let foods := df_food_filtered df_food cs b in
  let wide := wide_table ns (all_valid_fdc_ids foods) fns in
  let cols := all_nutrient_columns ns in
  t = df_100g foods (final_nutrient_columns cols wide) (df_wide_filtered cols wide).
Proof.
  intros H. cbv zeta. unfold process in H. cbv zeta in H.
  destruct (decide (all_valid_fdc_ids (df_food_filtered df_food cs b) = ∅)) as [He|He].
  - apply list_elem_of_singleton in H. discriminate.
  - apply elem_of_cons in H as [H|H]; [inversion H; reflexivity |].
    exfalso.
    destruct (df_portion_filtered _ ps);
      repeat (apply elem_of_cons in H as [H|H]; [discriminate |]);
      apply elem_of_nil in H; exact H.
Qed.

Lemma process_serving_inv df_food ns fns ps us cs b (t : table row_serving) :
  WriteFoodsPerServing t ∈ process float_str df_food ns fns ps us cs b ->
  let foods := df_food_filtered df_food cs b in
  let wide := wide_table ns (all_valid_fdc_ids foods) fns in
  let cols := all_nutrient_columns ns in
  exists servings,
    t = df_per_serving_final foods (final_nutrient_columns cols wide)
          (df_per_serving servings (final_nutrient_columns cols wide)
             (df_wide_filtered cols wide)).
Proof.
  intros H. cbv zeta. unfold process in H. cbv zeta in H.
  destruct (decide (all_valid_fdc_ids (df_food_filtered df_food cs b) = ∅)) as [He|He].
  - apply list_elem_of_singleton in H. discriminate.
  - apply elem_of_cons in H as [H|H]; [discriminate |].
    destruct (df_portion_filtered _ ps) as [|p ps'].
    + exfalso.
      repeat (apply elem_of_cons in H as [H|H]; [discriminate |]).
      apply elem_of_nil in H; exact H.
    + apply elem_of_cons in H as [H|H].
      * inversion H. eexists. reflexivity.
      * exfalso. apply list_elem_of_singleton in H. discriminate.
Qed.

(** An event that is not a printed line comes from [process] on the six
    tables of the folder. *)
Lemma run_inv (dir : folder) (e : event) :
  e ∈ create_nutrition_csvs_final float_str dir ->
  (forall m, e ≠ Print m) ->
  exists df_food ns fns ps us cs,
    food_csv dir = Some df_food /\ nutrient_csv dir = Some ns
    /\ food_nutrient_csv dir = Some fns /\ food_portion_csv dir = Some ps
    /\ measure_unit_csv dir = Some us /\ food_category_csv dir = Some cs
    /\ e ∈ process float_str df_food ns fns ps us cs (branded_food_csv dir).
Proof.
  unfold create_nutrition_csvs_final. intros H Hnp.
  destruct (food_csv dir) as [df_food|];
    [| apply list_elem_of_singleton in H; exfalso; eapply Hnp, H].
  destruct (nutrient_csv dir) as [ns|];
    [| apply list_elem_of_singleton in H; exfalso; eapply Hnp, H].
  destruct (food_nutrient_csv dir) as [fns|];
    [| apply list_elem_of_singleton in H; exfalso; eapply Hnp, H].
  destruct (food_portion_csv dir) as [ps|];
    [| apply list_elem_of_singleton in H; exfalso; eapply Hnp, H].
  destruct (measure_unit_csv dir) as [us|];
    [| apply list_elem_of_singleton in H; exfalso; eapply Hnp, H].
  destruct (food_category_csv dir) as [cs|];
    [| apply list_elem_of_singleton in H; exfalso; eapply Hnp, H].
  apply elem_of_app in H as [H|H].
  - exfalso. destruct (branded_food_csv dir).
    + apply elem_of_nil in H. exact H.
    + apply list_elem_of_singleton in H. eapply Hnp, H.
  - exists df_food, ns, fns, ps, us, cs. auto 10.
Qed.

(** The rows of the per-100g table: a food of the filtered list together
    with the row of its id in the filtered wide table. *)
Lemma df_100g_row foods final_cols wide (r : row_100g) :
  r ∈ body (df_100g foods final_cols wide) <->
  r100_food r ∈ foods
  /\ (fdc_id (r100_food r), r100_nutrients r) ∈ Pd.rows wide.
Proof.
  unfold df_100g. cbn [body].
  rewrite PdFacts.elem_of_merge_sort, PdFacts.elem_of_merge_inner. split.
  - intros (f & [i cells] & Hf & Hr & Hk & ->). cbn.
    apply bool_decide_eq_true_1 in Hk. cbn in Hk. subst i. auto.
  - intros [Hf Hr]. exists (r100_food r), (fdc_id (r100_food r), r100_nutrients r).
    repeat split; try assumption.
    + apply bool_decide_eq_true_2. reflexivity.
    + destruct r; reflexivity.
Qed.

(** The rows of the per-serving table: a food, a serving of that food and
    the scaled row of its id in the filtered wide table. *)
Lemma df_per_serving_final_row foods final_cols servings wide (r : row_serving) :
  r ∈ body (df_per_serving_final foods final_cols
              (df_per_serving servings final_cols wide)) <->
  rs_food r ∈ foods
  /\ rs_serving r ∈ servings
  /\ fdc_id (rs_food r) = sv_fdc_id (rs_serving r)
  /\ exists cells, (sv_fdc_id (rs_serving r), cells) ∈ Pd.rows wide
       /\ rs_nutrients r = scale_row final_cols (serving_size_g (rs_serving r)) cells.
Proof.
  unfold df_per_serving_final, df_per_serving. cbn [body].
  rewrite PdFacts.elem_of_merge_sort, PdFacts.elem_of_merge_inner. split.
  - intros (f & [s cells'] & Hf & Hr & Hk & ->). cbn.
    apply bool_decide_eq_true_1 in Hk. cbn in Hk.
    apply PdFacts.elem_of_merge_inner in Hr as (s0 & [i cells] & Hs & Hw & Hk' & Heq).
    apply bool_decide_eq_true_1 in Hk'. cbn in Hk'. inversion Heq; subst.
    repeat split; try assumption. exists cells. auto.
  - intros (Hf & Hs & Hid & cells & Hw & Hn).
    exists (rs_food r), (rs_serving r, rs_nutrients r). repeat split.
    + exact Hf.
    + apply PdFacts.elem_of_merge_inner.
      exists (rs_serving r), (sv_fdc_id (rs_serving r), cells).
      repeat split; try assumption.
      * apply bool_decide_eq_true_2. reflexivity.
      * cbn. rewrite Hn. reflexivity.
    + apply bool_decide_eq_true_2. exact Hid.
    + destruct r; reflexivity.
Qed.

End RunFacts.

(** ** Missing measurements *)

Section Missing.

Variable float_str : float -> string.


(** C9. A food without any measurement in the food-nutrient table has no
    row in the pivot, none after the reindexing and the fill, which keep
    the index of the pivot, and none in either output file, whose rows
    come from inner merges with the wide table. *)
Theorem food_without_measurement_is_dropped (dir : folder)
    (ns : list nutrient) (fns : list food_nutrient) (f : Z) :
  nutrient_csv dir = Some ns ->
  food_nutrient_csv dir = Some fns ->
  (forall m, m ∈ fns -> fn_fdc_id m ≠ f) ->
  (forall valid,
      (f ∉ (Pd.rows (pivot (df_fn_pivot_ready ns valid fns))).*1)
      /\ ((Pd.rows (wide_table ns valid fns)).*1
          = (Pd.rows (pivot (df_fn_pivot_ready ns valid fns))).*1))
  /\ (forall t r,
        WriteFoodsPer100g t ∈ create_nutrition_csvs_final float_str dir ->
        r ∈ body t -> fdc_id (r100_food r) ≠ f)
  /\ (forall t r,
        WriteFoodsPerServing t ∈ create_nutrition_csvs_final float_str dir ->
        r ∈ body t -> fdc_id (rs_food r) ≠ f).
Proof.
  intros Hns Hfns Habs.
  assert (Hwide : forall valid cells, (f, cells) ∉ Pd.rows (wide_table ns valid fns)).
  { intros valid cells Hrow.
    apply WideFacts.wide_table_index in Hrow as (m & Hm & Hid & _).
    exact (Habs m Hm Hid). }
  assert (Hfiltered : forall valid cells',
             (f, cells') ∉ Pd.rows (df_wide_filtered (all_nutrient_columns ns)
                                      (wide_table ns valid fns))).
  { intros valid cells' Hrow.
    apply WideFacts.wide_filtered_row in Hrow as (cells & Hrow & _).
    exact (Hwide valid cells Hrow). }
  split; [| split].
  - intros valid. split; [| apply WideFacts.wide_all_cols_index].
    intros Hin. apply list_elem_of_fmap in Hin as ([f' cells] & Heq & Hrow).
    cbn in Heq. subst f'. apply WideFacts.pivot_index in Hrow as [Hf _].
    apply list_elem_of_fmap in Hf as (r & Hid & Hr).
    apply WideFacts.pivot_ready_origin in Hr as (m & Hm & _ & Hfm & _).
    apply (Habs m Hm). congruence.
  - intros t r Ht Hr Hf.
    apply run_inv in Ht as (df_food & ns' & fns' & ps & us & cs & _ & Hns' & Hfns' & _ & _ & _ & Ht);
      [| discriminate].
    rewrite Hns in Hns'. rewrite Hfns in Hfns'. inversion Hns'; inversion Hfns'; subst ns' fns'.
    apply process_100g_inv in Ht. cbv zeta in Ht. subst t.
    apply df_100g_row in Hr as [_ Hr]. rewrite Hf in Hr.
    exact (Hfiltered _ _ Hr).
  - intros t r Ht Hr Hf.
    apply run_inv in Ht as (df_food & ns' & fns' & ps & us & cs & _ & Hns' & Hfns' & _ & _ & _ & Ht);
      [| discriminate].
    rewrite Hns in Hns'. rewrite Hfns in Hfns'. inversion Hns'; inversion Hfns'; subst ns' fns'.
    apply process_serving_inv in Ht. cbv zeta in Ht. destruct Ht as [servings ->].
    apply df_per_serving_final_row in Hr as (_ & _ & Hid & cells & Hrow & _).
    rewrite <- Hid, Hf in Hrow.
    exact (Hfiltered _ _ Hrow).
Qed.

End Missing.

(** ** Sparse columns *)

Lemma exceeds_threshold_spec (missing_count total_foods : nat) :
  exceeds_threshold missing_count total_foods = true
  <-> (total_foods < 2 * missing_count)%nat.
Proof.
  unfold exceeds_threshold, QArith_base.Qle_bool. cbn.
  rewrite negb_true_iff, Z.leb_gt. lia.
Qed.

Lemma kept_column_spec (cols : list string) (df : Pd.wide) (c : string) :
  c ∈ final_nutrient_columns cols df <->
  c ∈ cols /\ (2 * Pd.count_eq c Py.SENTINEL df <= length (Pd.rows df))%nat.
Proof.
  rewrite WideFacts.elem_of_final_nutrient_columns, WideFacts.elem_of_columns_to_drop.
  rewrite exceeds_threshold_spec. split.
  - intros [Hc Hn]. split; [exact Hc |].
    destruct (le_lt_dec (2 * Pd.count_eq c Py.SENTINEL df) (length (Pd.rows df)));
      [assumption | exfalso; apply Hn; split; assumption].
  - intros [Hc Hle]. split; [exact Hc |]. intros [_ Hlt]. lia.
Qed.

(** Every row of the filtered wide table has exactly the kept columns. *)
Lemma wide_filtered_columns (ns : list nutrient) (valid : gset Z)
    (fns : list food_nutrient) (f : Z) (cells : gmap string float) (c : string) :
  (f, cells) ∈ Pd.rows (df_wide_filtered (all_nutrient_columns ns)
                          (wide_table ns valid fns)) ->
  is_Some (cells !! c)
  <-> c ∈ final_nutrient_columns (all_nutrient_columns ns) (wide_table ns valid fns).
Proof.
  intros Hrow.
  apply WideFacts.wide_filtered_row in Hrow as (cells0 & Hrow & ->).
  apply WideFacts.wide_all_cols_row in Hrow as [_ Hcell].
  rewrite WideFacts.filtered_cell_lookup, Hcell,
    WideFacts.elem_of_final_nutrient_columns.
  destruct (decide (c ∈ columns_to_drop _ _)) as [Hd|Hd],
           (decide (c ∈ all_nutrient_columns ns)) as [Hc|Hc];
    split; try (intros [? ?]; discriminate); try tauto; eauto.
Qed.

Section Sparsity.

Variable float_str : float -> string.

(** C2, as the code has it.  A column of the column universe is in the
    header of both output files if and only if at most half of the rows of
    the wide table, which are the filtered foods with at least one
    measurement, hold the sentinel -1.0 under it; it is dropped exactly when
    the sentinel count exceeds half the number of those rows; and every row
    of either file has a cell under the column exactly when the column is in
    the header. *)
Theorem column_kept_iff_at_most_half_of_rows_sentinel
    (df_food : list food) (ns : list nutrient) (fns : list food_nutrient)
    (ps : list food_portion) (us : list measure_unit) (cs : list food_category)
    (b : option (list branded_food)) (c : string) :
  let dir := {| food_csv := Some df_food; nutrient_csv := Some ns;
                food_nutrient_csv := Some fns; food_portion_csv := Some ps;
                measure_unit_csv := Some us; food_category_csv := Some cs;
                branded_food_csv := b |} in
  let wide := wide_table ns (all_valid_fdc_ids (df_food_filtered df_food cs b)) fns in
  let missing_count := Pd.count_eq c Py.SENTINEL wide in
  let total_foods := length (Pd.rows wide) in
  let kept := c ∈ all_nutrient_columns ns /\ (2 * missing_count <= total_foods)%nat in
  let dropped := c ∈ all_nutrient_columns ns /\ (total_foods < 2 * missing_count)%nat in
  (forall t, WriteFoodsPer100g t ∈ create_nutrition_csvs_final float_str dir ->
     (c ∈ nutrient_header t <-> kept)
     /\ (c ∈ all_nutrient_columns ns -> (c ∉ nutrient_header t <-> dropped))
     /\ (forall r, r ∈ body t -> (is_Some (r100_nutrients r !! c) <-> kept)))
  /\ (forall t, WriteFoodsPerServing t ∈ create_nutrition_csvs_final float_str dir ->
     (c ∈ nutrient_header t <-> kept)
     /\ (c ∈ all_nutrient_columns ns -> (c ∉ nutrient_header t <-> dropped))
     /\ (forall r, r ∈ body t -> (is_Some (rs_nutrients r !! c) <-> kept))).
Proof.
  intros dir wide missing_count total_foods kept dropped.
  assert (Hdrop : forall header : list string,
             (c ∈ header <-> kept) ->
             c ∈ all_nutrient_columns ns -> (c ∉ header <-> dropped)).
  { intros header Hk Hc. rewrite Hk. unfold kept, dropped. split.
    - intros Hn. split; [exact Hc |].
      destruct (le_lt_dec (2 * missing_count) total_foods);
        [exfalso; apply Hn; split; assumption | assumption].
    - intros [_ Hlt] [_ Hle]. lia. }
  split.
  - intros t Ht.
    apply run_inv in Ht as (df_food' & ns' & fns' & ps' & us' & cs' & H1 & H2 & H3 & H4 & H5 & H6 & Ht);
      [| discriminate].
    cbn in H1, H2, H3, H4, H5, H6.
    inversion H1; inversion H2; inversion H3; inversion H4; inversion H5; inversion H6.
    subst df_food' ns' fns' ps' us' cs'. cbn [branded_food_csv dir] in Ht.
    apply process_100g_inv in Ht. cbv zeta in Ht. subst t.
    cbn [nutrient_header df_100g].
    pose proof (kept_column_spec (all_nutrient_columns ns) wide c) as Hk.
    split; [exact Hk |]. split; [apply Hdrop, Hk |].
    intros r Hr. apply df_100g_row in Hr as [_ Hr].
    rewrite (wide_filtered_columns _ _ _ _ _ c Hr). exact Hk.
  - intros t Ht.
    apply run_inv in Ht as (df_food' & ns' & fns' & ps' & us' & cs' & H1 & H2 & H3 & H4 & H5 & H6 & Ht);
      [| discriminate].
    cbn in H1, H2, H3, H4, H5, H6.
    inversion H1; inversion H2; inversion H3; inversion H4; inversion H5; inversion H6.
    subst df_food' ns' fns' ps' us' cs'. cbn [branded_food_csv dir] in Ht.
    apply process_serving_inv in Ht. cbv zeta in Ht. destruct Ht as [servings ->].
    cbn [nutrient_header df_per_serving_final].
    pose proof (kept_column_spec (all_nutrient_columns ns) wide c) as Hk.
    split; [exact Hk |]. split; [apply Hdrop, Hk |].
    intros r Hr. apply df_per_serving_final_row in Hr as (_ & _ & _ & cells & Hrow & ->).
    rewrite PdFacts.scale_row_is_Some.
    rewrite (wide_filtered_columns _ _ _ _ _ c Hrow). exact Hk.
Qed.

End Sparsity.

(** C2, as the specification words it, fails: of three filtered foods only
    food 1 is measured, for A and not for B.  The wide table has the single
    row of food 1, so the code keeps A (no sentinel in one row) and drops B
    (one sentinel in one row).  Over the three filtered foods, B holds the
    sentinel for one food of three, which is at most half, and still B is
    dropped; and if a food without a row counts as a sentinel, A lacks a
    value for two foods of three, which is more than half, and still A is
    kept. *)
Lemma sparsity_is_counted_over_wide_rows :
  let foods := df_food_filtered Sample.sparse_foods [] None in
  let valid := elements (all_valid_fdc_ids foods) in
  let wide := wide_table Sample.sparse_nutrients (all_valid_fdc_ids foods)
                Sample.sparse_measurements in
  let cols := all_nutrient_columns Sample.sparse_nutrients in
  let run := create_nutrition_csvs_final Sample.float_str Sample.sparse_dir in
  length valid = 3%nat
  /\ length (Pd.rows wide) = 1%nat
  /\ cols = ["A (G)"; "B (G)"]
  /\ nutrient_header <$> written_100g run = Some ["A (G)"]
  /\ nutrient_header <$> written_serving run = Some ["A (G)"]
  /\ length (foods_with_sentinel valid wide "B (G)") = 1%nat
  /\ length (foods_without_value valid wide "A (G)") = 2%nat
  /\ ~ spec_sparsity_rule (foods_with_sentinel valid wide) valid cols ["A (G)"]
  /\ ~ spec_sparsity_rule (foods_without_value valid wide) valid cols ["A (G)"].
Proof.
  intros foods valid wide cols run.
  assert (Hn : length valid = 3%nat) by (vm_compute; reflexivity).
  assert (Hcols : cols = ["A (G)"; "B (G)"]) by (vm_compute; reflexivity).
  assert (HB : length (foods_with_sentinel valid wide "B (G)") = 1%nat)
    by (vm_compute; reflexivity).
  assert (HA : length (foods_without_value valid wide "A (G)") = 2%nat)
    by (vm_compute; reflexivity).
  split; [exact Hn |]. split; [vm_compute; reflexivity |].
  split; [exact Hcols |].
  split; [vm_compute; reflexivity |]. split; [vm_compute; reflexivity |].
  split; [exact HB |]. split; [exact HA |]. split.
  - intros Hrule. destruct (Hrule "B (G)") as [_ Hkeep].
    { rewrite Hcols. right. left. }
    rewrite HB, Hn in Hkeep.
    assert (Hin : "B (G)" ∈ ["A (G)"]) by (apply Hkeep; lia).
    apply list_elem_of_singleton in Hin. discriminate.
  - intros Hrule. destruct (Hrule "A (G)") as [Hkeep _].
    { rewrite Hcols. left. }
    rewrite HA, Hn in Hkeep.
    assert (Hle : (2 * 2 <= 3)%nat) by (apply Hkeep; left).
    lia.
Qed.

(** ** No portion left *)

Section NoPortion.

Variable float_str : float -> string.

(** C8. When no portion row is left after the three conditions, the run
    writes foods_per_100g.csv, prints the warning and the closing line, and
    writes no foods_per_serving.csv; it prints no error. *)
Theorem no_portion_skips_serving_file
    (df_food : list food) (ns : list nutrient) (fns : list food_nutrient)
    (ps : list food_portion) (us : list measure_unit) (cs : list food_category)
    (b : option (list branded_food)) :
  let dir := {| food_csv := Some df_food; nutrient_csv := Some ns;
                food_nutrient_csv := Some fns; food_portion_csv := Some ps;
                measure_unit_csv := Some us; food_category_csv := Some cs;
                branded_food_csv := b |} in
  let foods := df_food_filtered df_food cs b in
  let valid := all_valid_fdc_ids foods in
  let wide := wide_table ns valid fns in
  let run := create_nutrition_csvs_final float_str dir in
  valid ≠ ∅ ->
  df_portion_filtered valid ps = [] ->
  run = match b with None => [Print WarningBrandedNotFound] | Some _ => [] end
        ++ [WriteFoodsPer100g
              (df_100g foods
                 (final_nutrient_columns (all_nutrient_columns ns) wide)
                 (df_wide_filtered (all_nutrient_columns ns) wide));
            Print WarningNoPortion; Print AllDone]
  /\ written_serving run = None
  /\ (forall t, WriteFoodsPerServing t ∉ run)
  /\ is_Some (written_100g run)
  /\ last run = Some (Print AllDone)
  /\ (Print ErrorNoFoods ∉ run)
  /\ (forall filename, Print (ErrorMissingFile filename) ∉ run).
Proof.
  intros dir foods valid wide run Hvalid Hnone.
  assert (Hrun : run = match b with None => [Print WarningBrandedNotFound] | Some _ => [] end
                       ++ [WriteFoodsPer100g
                             (df_100g foods
                                (final_nutrient_columns (all_nutrient_columns ns) wide)
                                (df_wide_filtered (all_nutrient_columns ns) wide));
                           Print WarningNoPortion; Print AllDone]).
  { unfold run, create_nutrition_csvs_final, process. cbn [food_csv nutrient_csv
      food_nutrient_csv food_portion_csv measure_unit_csv food_category_csv
      branded_food_csv dir].
    fold foods. fold valid. rewrite decide_False by exact Hvalid.
    rewrite Hnone. reflexivity. }
  split; [exact Hrun |]. rewrite Hrun.
  destruct b as [brands|].
  - repeat split; cbn; eauto.
    + intros t Ht. repeat (apply elem_of_cons in Ht as [Ht|Ht]; [discriminate |]).
      apply elem_of_nil in Ht. exact Ht.
    + intros Ht. repeat (apply elem_of_cons in Ht as [Ht|Ht]; [discriminate |]).
      apply elem_of_nil in Ht. exact Ht.
    + intros filename Ht. repeat (apply elem_of_cons in Ht as [Ht|Ht]; [discriminate |]).
      apply elem_of_nil in Ht. exact Ht.
  - repeat split; cbn; eauto.
    + intros t Ht. repeat (apply elem_of_cons in Ht as [Ht|Ht]; [discriminate |]).
      apply elem_of_nil in Ht. exact Ht.
    + intros Ht. repeat (apply elem_of_cons in Ht as [Ht|Ht]; [discriminate |]).
      apply elem_of_nil in Ht. exact Ht.
    + intros filename Ht. repeat (apply elem_of_cons in Ht as [Ht|Ht]; [discriminate |]).
      apply elem_of_nil in Ht. exact Ht.
Qed.

End NoPortion.

(** ** The theorems on the sample folder *)

Lemma no_portion_skips_serving_file_witness :
  let dir := {| food_csv := Some Sample.foods; nutrient_csv := Some Sample.nutrients;
                food_nutrient_csv := Some Sample.measurements;
                food_portion_csv := Some Sample.discarded_portions;
                measure_unit_csv := Some Sample.units;
                food_category_csv := Some Sample.categories;
                branded_food_csv := Some Sample.brands |} in
  let run := create_nutrition_csvs_final Sample.float_str dir in
  (all_valid_fdc_ids (df_food_filtered Sample.foods Sample.categories (Some Sample.brands)) ≠ ∅
   /\ df_portion_filtered
        (all_valid_fdc_ids (df_food_filtered Sample.foods Sample.categories (Some Sample.brands)))
        Sample.discarded_portions = [])
  /\ written_serving run = None
  /\ is_Some (written_100g run)
  /\ last run = Some (Print AllDone).
Proof.
  intros dir run.
  assert (Hvalid : all_valid_fdc_ids
                     (df_food_filtered Sample.foods Sample.categories (Some Sample.brands)) ≠ ∅).
  { intros He. apply (f_equal elements) in He. vm_compute in He. discriminate. }
  assert (Hnone : df_portion_filtered
                    (all_valid_fdc_ids
                       (df_food_filtered Sample.foods Sample.categories (Some Sample.brands)))
                    Sample.discarded_portions = []) by (vm_compute; reflexivity).
  destruct (no_portion_skips_serving_file Sample.float_str Sample.foods Sample.nutrients
              Sample.measurements Sample.discarded_portions Sample.units
              Sample.categories (Some Sample.brands) Hvalid Hnone)
    as (_ & Hs & _ & H100 & Hlast & _).
  exact (conj (conj Hvalid Hnone) (conj Hs (conj H100 Hlast))).
Defined.

Lemma sample_measurements_cases (P : food_nutrient -> Prop) :
  P {| fn_fdc_id := 1; fn_nutrient_id := 10; fn_amount := 500 |} ->
  P {| fn_fdc_id := 1; fn_nutrient_id := 11; fn_amount := 12 |} ->
  P {| fn_fdc_id := 4; fn_nutrient_id := 12; fn_amount := 3 |} ->
  P {| fn_fdc_id := 4; fn_nutrient_id := 11; fn_amount := 80 |} ->
  P {| fn_fdc_id := 3; fn_nutrient_id := 11; fn_amount := 7 |} ->
  forall m, m ∈ Sample.measurements -> P m.
Proof.
  intros H1 H2 H3 H4 H5 m Hm. unfold Sample.measurements in Hm.
  repeat (apply elem_of_cons in Hm as [->|Hm]; [assumption |]).
  apply elem_of_nil in Hm. contradiction.
Defined.


Lemma food_without_measurement_is_dropped_witness :
  (forall valid,
      (2 ∉ (Pd.rows (pivot (df_fn_pivot_ready Sample.nutrients valid Sample.measurements))).*1)
      /\ ((Pd.rows (wide_table Sample.nutrients valid Sample.measurements)).*1
          = (Pd.rows (pivot (df_fn_pivot_ready Sample.nutrients valid Sample.measurements))).*1))
  /\ (forall t r,
        WriteFoodsPer100g t ∈ create_nutrition_csvs_final Sample.float_str Sample.dir ->
        r ∈ body t -> fdc_id (r100_food r) ≠ 2)
  /\ (forall t r,
        WriteFoodsPerServing t ∈ create_nutrition_csvs_final Sample.float_str Sample.dir ->
        r ∈ body t -> fdc_id (rs_food r) ≠ 2).
Proof.
  apply (food_without_measurement_is_dropped Sample.float_str Sample.dir
           Sample.nutrients Sample.measurements 2).
  - reflexivity.
  - reflexivity.
  - apply (sample_measurements_cases (fun m => fn_fdc_id m ≠ 2)); discriminate.
Defined.

(** On the sample folder food 2 is of a valid type and has a valid portion,
    and the two files hold the rows of foods 1 and 4 only; the iron cell of
    food 1 is the sentinel in both. *)
Example sample_run :
  let run := create_nutrition_csvs_final Sample.float_str Sample.dir in
  elements (all_valid_fdc_ids
              (df_food_filtered Sample.foods Sample.categories (Some Sample.brands)))
    ≡ₚ [1; 2; 4]
  /\ (fun t => (fun r => (fdc_id (r100_food r), r100_nutrients r !! "Iron (G)"))
                 <$> body t) <$> written_100g run
     = Some [(1, Some (-1.0)%float); (4, Some 0.003%float)]
  /\ (fun t => (fun r => (fdc_id (rs_food r), serving_size_g (rs_serving r),
                            rs_nutrients r !! "Iron (G)", rs_nutrients r !! "Sodium (G)"))
                 <$> body t) <$> written_serving run
     = Some [(1, 50%float, Some (-1.0)%float, Some 0.25%float);
             (4, 100%float, Some 0.003%float, Some (-1.0)%float)].
Proof.
  intros run. split; [| split].
  - assert (H : elements (all_valid_fdc_ids
                   (df_food_filtered Sample.foods Sample.categories (Some Sample.brands)))
                = [4; 2; 1]) by (vm_compute; reflexivity).
    rewrite H. symmetry.
    change [1; 2; 4] with (reverse [4; 2; 1]). apply reverse_Permutation.
  - vm_compute. reflexivity.
  - vm_compute. reflexivity.
Qed.

(** * Further properties of the script *)

(** ** Loading *)

Section Loading.

Variable float_str : float -> string.

(** The first required file that is missing, in the order the script reads
    them. *)
Lemma missing_file_run (dir : folder) :
  food_csv dir = None \/ nutrient_csv dir = None \/ food_nutrient_csv dir = None
  \/ food_portion_csv dir = None \/ measure_unit_csv dir = None
  \/ food_category_csv dir = None ->
  exists filename,
    create_nutrition_csvs_final float_str dir = [Print (ErrorMissingFile filename)]
    /\ filename ∈ ["food.csv"; "nutrient.csv"; "food_nutrient.csv";
                   "food_portion.csv"; "measure_unit.csv"; "food_category.csv"].
Proof.
  intros Hmiss. unfold create_nutrition_csvs_final.
  destruct (food_csv dir); [| eexists; split; [reflexivity | elem_of_list_tac]].
  destruct (nutrient_csv dir); [| eexists; split; [reflexivity | elem_of_list_tac]].
  destruct (food_nutrient_csv dir); [| eexists; split; [reflexivity | elem_of_list_tac]].
  destruct (food_portion_csv dir); [| eexists; split; [reflexivity | elem_of_list_tac]].
  destruct (measure_unit_csv dir); [| eexists; split; [reflexivity | elem_of_list_tac]].
  destruct (food_category_csv dir); [| eexists; split; [reflexivity | elem_of_list_tac]].
  exfalso. destruct Hmiss as [H|[H|[H|[H|[H|H]]]]]; discriminate.
Qed.


(** Conversely, a run that wrote a file or printed the closing line found
    all six required files. *)
Lemma all_done_needs_six_files (dir : folder) :
  Print AllDone ∈ create_nutrition_csvs_final float_str dir ->
  is_Some (food_csv dir) /\ is_Some (nutrient_csv dir)
  /\ is_Some (food_nutrient_csv dir) /\ is_Some (food_portion_csv dir)
  /\ is_Some (measure_unit_csv dir) /\ is_Some (food_category_csv dir).
Proof.
  intros H.
  destruct (food_csv dir) eqn:H1, (nutrient_csv dir) eqn:H2,
    (food_nutrient_csv dir) eqn:H3, (food_portion_csv dir) eqn:H4,
    (measure_unit_csv dir) eqn:H5, (food_category_csv dir) eqn:H6;
    try (repeat split; eauto; fail);
    exfalso;
    (destruct (missing_file_run dir) as (filename & Hrun & _); [tauto |]);
    rewrite Hrun in H; apply list_elem_of_singleton in H; discriminate.
Qed.

End Loading.


(** ** Merges and deduplication *)

Module MergeFacts.

Lemma elem_of_merge_left {A B C} (same_key : A -> B -> bool)
    (join : A -> option B -> C) (l : list A) (r : list B) (c : C) :
  c ∈ Pd.merge_left same_key join l r <->
  exists a, a ∈ l
    /\ ((exists b, b ∈ r /\ same_key a b = true /\ c = join a (Some b))
        \/ ((forall b, b ∈ r -> same_key a b ≠ true) /\ c = join a None)).
Proof.
  unfold Pd.merge_left. rewrite list_elem_of_bind. split.
  - intros (a & Hc & Ha). exists a. split; [exact Ha |].
    destruct (filter _ r) as [|b0 bs] eqn:Hf.
    + apply list_elem_of_singleton in Hc. right. split; [| exact Hc].
      intros b Hb Hk.
      assert (Hin : b ∈ filter (fun b => same_key a b = true) r)
        by (apply list_elem_of_filter; auto).
      rewrite Hf in Hin. inversion Hin.
    + apply list_elem_of_fmap in Hc as (b & -> & Hb). rewrite <- Hf in Hb.
      apply list_elem_of_filter in Hb as [Hk Hb]. left. eauto.
  - intros (a & Ha & [(b & Hb & Hk & ->)|[Hno ->]]); exists a; (split; [| exact Ha]).
    + assert (Hin : b ∈ filter (fun b => same_key a b = true) r)
        by (apply list_elem_of_filter; auto).
      destruct (filter _ r) as [|b0 bs]; [inversion Hin |].
      apply list_elem_of_fmap. eauto.
    + destruct (filter _ r) as [|b0 bs] eqn:Hf; [left |].
      exfalso. apply (Hno b0).
      * eapply list_elem_of_filter. rewrite Hf. left.
      * assert (Hin : b0 ∈ filter (fun b => same_key a b = true) r) by (rewrite Hf; left).
        apply list_elem_of_filter in Hin. tauto.
Qed.

(** A left merge keeps every left row at least once and adds none: a key
    that the join copies from the left row has the same values before and
    after. *)
Lemma merge_left_keys {A B C K} (same_key : A -> B -> bool)
    (join : A -> option B -> C) (kl : A -> K) (kc : C -> K)
    (l : list A) (r : list B) (k : K) :
  (forall a ob, kc (join a ob) = kl a) ->
  k ∈ kc <$> Pd.merge_left same_key join l r <-> k ∈ kl <$> l.
Proof.
  intros Hkey. rewrite !list_elem_of_fmap. split.
  - intros (c & -> & Hc). apply elem_of_merge_left in Hc as (a & Ha & Hc).
    exists a. split; [| exact Ha].
    destruct Hc as [(b & _ & _ & ->)|[_ ->]]; apply Hkey.
  - intros (a & -> & Ha).
    destruct (filter (fun b => same_key a b = true) r) as [|b0 bs] eqn:Hf.
    + exists (join a None). split; [symmetry; apply Hkey |].
      apply elem_of_merge_left. exists a. split; [exact Ha |]. right.
      split; [| reflexivity]. intros b Hb Hk.
      assert (Hin : b ∈ filter (fun b => same_key a b = true) r)
        by (apply list_elem_of_filter; auto).
      rewrite Hf in Hin. inversion Hin.
    + exists (join a (Some b0)). split; [symmetry; apply Hkey |].
      assert (Hin : b0 ∈ filter (fun b => same_key a b = true) r) by (rewrite Hf; left).
      apply list_elem_of_filter in Hin as [Hk Hb].
      apply elem_of_merge_left. exists a. split; [exact Ha |]. left. eauto.
Qed.

Lemma filter_fmap {A B} (f : A -> B) (P : B -> Prop) `{!forall y, Decision (P y)}
    (l : list A) :
  filter P (f <$> l) = f <$> filter (fun x => P (f x)) l.
Proof.
  induction l as [|x l IH]; [reflexivity |].
  rewrite fmap_cons, !filter_cons.
  destruct (decide (P (f x))); rewrite IH; reflexivity.
Qed.

Section ByKey.

Context {A K : Type} `{EqDecision K}.
Variable key : A -> K.
Variable same : A -> A -> bool.
Hypothesis same_key : forall x y, same x y = true <-> key x = key y.

Lemma existsb_same_seen (x : A) (seen : list A) :
  existsb (same x) seen = true <-> key x ∈ key <$> seen.
Proof.
  rewrite existsb_exists, list_elem_of_fmap. split.
  - intros (y & Hy & Hs). exists y. split; [apply same_key, Hs |].
    apply list_elem_of_In, Hy.
  - intros (y & Hk & Hy). exists y. split; [apply list_elem_of_In, Hy |].
    apply same_key, Hk.
Qed.

(** Of the rows with one key, [drop_duplicates] keeps the first and only
    the first. *)
Lemma filter_drop_duplicates_from (k : K) (seen l : list A) :
  filter (fun x => key x = k) (Pd.drop_duplicates_from same seen l) =
    if decide (k ∈ key <$> seen) then []
    else option_list (head (filter (fun x => key x = k) l)).
Proof.
  revert seen. induction l as [|x l IH]; intros seen.
  - cbn. destruct (decide _); reflexivity.
  - cbn [Pd.drop_duplicates_from].
    destruct (existsb (same x) seen) eqn:Hex.
    + apply existsb_same_seen in Hex. rewrite IH.
      destruct (decide (k ∈ key <$> seen)) as [Hk|Hk]; [reflexivity |].
      rewrite (filter_cons_False _ x); [reflexivity |].
      intros Heq. apply Hk. rewrite <- Heq. exact Hex.
    + assert (Hnot : key x ∉ key <$> seen).
      { intros Hin. apply existsb_same_seen in Hin. congruence. }
      rewrite !filter_cons. destruct (decide (key x = k)) as [Heq|Hne].
      * rewrite IH. rewrite decide_True by (rewrite fmap_cons, Heq; left).
        rewrite decide_False by (rewrite <- Heq; exact Hnot). reflexivity.
      * rewrite IH. rewrite fmap_cons.
        destruct (decide (k ∈ key <$> seen)) as [Hk|Hk].
        -- rewrite decide_True by (right; exact Hk). reflexivity.
        -- rewrite decide_False; [reflexivity |].
           rewrite elem_of_cons. intros [Hx|Hx]; [congruence | contradiction].
Qed.

Lemma filter_drop_duplicates (k : K) (l : list A) :
  filter (fun x => key x = k) (Pd.drop_duplicates same l)
  = option_list (head (filter (fun x => key x = k) l)).
Proof.
  unfold Pd.drop_duplicates. rewrite filter_drop_duplicates_from.
  rewrite decide_False; [reflexivity |]. cbn. apply not_elem_of_nil.
Qed.

(** Deduplication loses no key. *)
Lemma drop_duplicates_keys (k : K) (l : list A) :
  k ∈ key <$> Pd.drop_duplicates same l <-> k ∈ key <$> l.
Proof.
  rewrite !list_elem_of_fmap. split.
  - intros (x & -> & Hx). exists x. split; [reflexivity |].
    eapply PdFacts.elem_of_drop_duplicates, Hx.
  - intros (x & -> & Hx).
    assert (Hin : x ∈ filter (fun y => key y = key x) l)
      by (apply list_elem_of_filter; auto).
    pose proof (filter_drop_duplicates (key x) l) as Hf.
    destruct (filter (fun y => key y = key x) l) as [|y ys]; [inversion Hin |].
    cbn in Hf.
    assert (Hy : y ∈ filter (fun z => key z = key x) (Pd.drop_duplicates same l))
      by (rewrite Hf; left).
    apply list_elem_of_filter in Hy as [Hk Hy]. eauto.
Qed.

End ByKey.

End MergeFacts.

(** ** The shape of a run *)

Section RunShape.

Variable float_str : float -> string.

Variables (df_food : list food) (ns : list nutrient) (fns : list food_nutrient)
  (ps : list food_portion) (us : list measure_unit) (cs : list food_category)
  (b : option (list branded_food)).

Let dir : folder :=
  {| food_csv := Some df_food; nutrient_csv := Some ns;
     food_nutrient_csv := Some fns; food_portion_csv := Some ps;
     measure_unit_csv := Some us; food_category_csv := Some cs;
     branded_food_csv := b |}.
Let foods := df_food_filtered df_food cs b.
Let valid := all_valid_fdc_ids foods.
Let cols := all_nutrient_columns ns.
Let wide := wide_table ns valid fns.
Let final_cols := final_nutrient_columns cols wide.
Let wide_filtered := df_wide_filtered cols wide.

Lemma run_with_six_files :
  create_nutrition_csvs_final float_str dir =
    match b with None => [Print WarningBrandedNotFound] | Some _ => [] end
    ++ if decide (valid = ∅) then [Print ErrorNoFoods]
       else WriteFoodsPer100g (df_100g foods final_cols wide_filtered) ::
            match df_portion_filtered valid ps with
            | [] => [Print WarningNoPortion; Print AllDone]
            | portions =>
                [WriteFoodsPerServing
                   (df_per_serving_final foods final_cols
                      (df_per_serving
                         (df_servings_base float_str (df_portion_full portions us))
                         final_cols wide_filtered));
                 Print AllDone]
            end.
Proof. reflexivity. Qed.

Lemma written_100g_run :
  written_100g (create_nutrition_csvs_final float_str dir) =
    if decide (valid = ∅) then None
    else Some (df_100g foods final_cols wide_filtered).
Proof.
  rewrite run_with_six_files.
  destruct b, (decide (valid = ∅)); reflexivity.
Qed.

Lemma written_serving_run :
  written_serving (create_nutrition_csvs_final float_str dir) =
    if decide (valid = ∅) then None
    else match df_portion_filtered valid ps with
         | [] => None
         | portions =>
             Some (df_per_serving_final foods final_cols
                     (df_per_serving
                        (df_servings_base float_str (df_portion_full portions us))
                        final_cols wide_filtered))
         end.
Proof.
  rewrite run_with_six_files.
  destruct b, (decide (valid = ∅)), (df_portion_filtered valid ps); reflexivity.
Qed.

End RunShape.

(** ** The valid foods *)

Lemma add_category_ids (l : list food) (cs : list food_category) (f : Z) :
  f ∈ fdc_id <$> add_category l cs <-> f ∈ food_fdc_id <$> l.
Proof. unfold add_category. apply MergeFacts.merge_left_keys. reflexivity. Qed.

Lemma add_brand_ids (l : list food_row) (b : option (list branded_food)) (f : Z) :
  f ∈ fdc_id <$> add_brand l b <-> f ∈ fdc_id <$> l.
Proof.
  unfold add_brand. destruct b as [brands|].
  - apply MergeFacts.merge_left_keys. reflexivity.
  - rewrite <- list_fmap_compose. reflexivity.
Qed.

(** The valid food ids are the ids of the foods of food.csv with a valid
    type: the merges with the categories and the brands add and lose none. *)
Lemma valid_ids_spec (df_food : list food) (cs : list food_category)
    (b : option (list branded_food)) (f : Z) :
  f ∈ all_valid_fdc_ids (df_food_filtered df_food cs b) <->
  exists x, x ∈ df_food /\ food_fdc_id x = f /\ food_data_type x ∈ VALID_FOOD_TYPES.
Proof.
  unfold all_valid_fdc_ids, df_food_filtered, filter_valid_types.
  rewrite elem_of_list_to_set, add_brand_ids, add_category_ids, list_elem_of_fmap.
  split.
  - intros (x & -> & Hx). apply list_elem_of_filter in Hx as [Ht Hx]. eauto.
  - intros (x & Hx & <- & Ht). exists x. split; [reflexivity |].
    apply list_elem_of_filter. auto.
Qed.

Lemma no_valid_ids_iff (df_food : list food) (cs : list food_category)
    (b : option (list branded_food)) :
  all_valid_fdc_ids (df_food_filtered df_food cs b) = ∅ <->
  forall x, x ∈ df_food -> food_data_type x ∉ VALID_FOOD_TYPES.
Proof.
  rewrite elem_of_equiv_empty_L. split.
  - intros H x Hx Ht. apply (H (food_fdc_id x)). apply valid_ids_spec. eauto.
  - intros H f Hf. apply valid_ids_spec in Hf as (x & Hx & _ & Ht). exact (H x Hx Ht).
Qed.

(** X2. With the six required files there, foods_per_100g.csv is written
    exactly when food.csv holds a food whose data type is one of the four
    valid types; otherwise the run ends with the error line for no foods
    and writes neither file. *)
Theorem per_100g_written_iff_valid_food (float_str : float -> string)
    (df_food : list food) (ns : list nutrient) (fns : list food_nutrient)
    (ps : list food_portion) (us : list measure_unit) (cs : list food_category)
    (b : option (list branded_food)) :
  let dir := {| food_csv := Some df_food; nutrient_csv := Some ns;
                food_nutrient_csv := Some fns; food_portion_csv := Some ps;
                measure_unit_csv := Some us; food_category_csv := Some cs;
                branded_food_csv := b |} in
  let run := create_nutrition_csvs_final float_str dir in
  (is_Some (written_100g run)
   <-> exists x, x ∈ df_food /\ food_data_type x ∈ VALID_FOOD_TYPES)
  /\ ((forall x, x ∈ df_food -> food_data_type x ∉ VALID_FOOD_TYPES) ->
      last run = Some (Print ErrorNoFoods)
      /\ written_100g run = None /\ written_serving run = None
      /\ Print AllDone ∉ run).
Proof.
  intros dir run. unfold run, dir. split.
  - rewrite written_100g_run.
    destruct (decide (_ = ∅)) as [He|He].
    + split; [intros [? ?]; discriminate |].
      intros (x & Hx & Ht). exfalso.
      exact (proj1 (no_valid_ids_iff _ _ _) He x Hx Ht).
    + split; [| eauto]. intros _.
      apply set_choose_L in He as [f Hf].
      apply valid_ids_spec in Hf as (x & Hx & _ & Ht). eauto.
  - intros Hnone. apply no_valid_ids_iff with (cs := cs) (b := b) in Hnone.
    rewrite written_100g_run, written_serving_run, run_with_six_files.
    rewrite !decide_True by exact Hnone.
    destruct b; repeat split; cbn;
      intros H; repeat (apply elem_of_cons in H as [H|H]; [discriminate |]);
      inversion H.
Qed.

(** ** Rows and cells of the wide table *)

Module CellFacts.

Lemma same_cell_key (x y : pivot_row) :
  same_cell x y = true <-> cell_key x = cell_key y.
Proof.
  unfold same_cell, cell_key. rewrite andb_true_iff, !bool_decide_eq_true.
  split; [intros [-> ->]; reflexivity | intros H; inversion H; auto].
Qed.

Lemma pivot_ready_unfold (ns : list nutrient) (valid : gset Z) (fns : list food_nutrient) :
  df_fn_pivot_ready ns valid fns =
    Pd.drop_duplicates same_cell
      (long_row ns <$> filter (fun m => fn_fdc_id m ∈ valid) fns).
Proof. reflexivity. Qed.

(** The first row of the long table for a food and a column is the row of
    the first measurement of that food whose nutrient has that column. *)
Lemma pivot_ready_first (ns : list nutrient) (valid : gset Z)
    (fns : list food_nutrient) (f : Z) (c : string) :
  f ∈ valid ->
  head (filter (fun r => pr_fdc_id r = f /\ pr_column_name r = Some c)
               (df_fn_pivot_ready ns valid fns))
  = long_row ns <$>
      head (filter (fun m => fn_fdc_id m = f
                             /\ id_to_column ns !! fn_nutrient_id m = Some c) fns).
Proof.
  intros Hf. rewrite pivot_ready_unfold.
  rewrite (list_filter_iff _ (fun r => cell_key r = (f, Some c)));
    [| intros r; unfold cell_key; split;
       [intros [-> ->]; reflexivity | intros H; inversion H; auto]].
  rewrite (MergeFacts.filter_drop_duplicates cell_key same_cell same_cell_key).
  rewrite MergeFacts.filter_fmap, list_filter_filter.
  rewrite (list_filter_iff _
             (fun m => fn_fdc_id m = f /\ id_to_column ns !! fn_nutrient_id m = Some c)).
  - destruct (filter _ fns) as [|m ms]; reflexivity.
  - intros m. unfold cell_key, long_row. cbn. split.
    + intros [H _]. inversion H; auto.
    + intros [-> ->]. auto.
Qed.

(** A valid food with a measurement has a row in the wide table. *)
Lemma wide_table_row_iff (ns : list nutrient) (valid : gset Z)
    (fns : list food_nutrient) (f : Z) :
  (exists cells, (f, cells) ∈ Pd.rows (wide_table ns valid fns)) <->
  f ∈ valid /\ exists m, m ∈ fns /\ fn_fdc_id m = f.
Proof.
  split.
  - intros (cells & Hrow).
    apply WideFacts.wide_table_index in Hrow as (m & Hm & Hf & Hv). eauto.
  - intros (Hv & m & Hm & Hf).
    assert (Hlong : f ∈ pr_fdc_id <$> df_fn_pivot_ready ns valid fns).
    { assert (Hk : cell_key (long_row ns m)
                   ∈ cell_key <$> df_fn_pivot_ready ns valid fns).
      { rewrite pivot_ready_unfold.
        apply (MergeFacts.drop_duplicates_keys cell_key same_cell same_cell_key).
        apply list_elem_of_fmap_2, list_elem_of_fmap_2, list_elem_of_filter.
        rewrite Hf. auto. }
      apply list_elem_of_fmap in Hk as (r & Hk & Hr).
      apply list_elem_of_fmap. exists r. split; [| exact Hr].
      unfold cell_key, long_row in Hk. cbn in Hk. inversion Hk. congruence. }
    assert (Hidx : f ∈ (Pd.rows (wide_table ns valid fns)).*1).
    { unfold wide_table. rewrite WideFacts.wide_all_cols_index.
      unfold pivot. cbn [Pd.rows]. rewrite <- list_fmap_compose.
      apply list_elem_of_fmap. exists f. split; [reflexivity |].
      apply PdFacts.elem_of_sorted_unique_Z, Hlong. }
    apply list_elem_of_fmap in Hidx as ([f' cells] & Heq & Hrow). cbn in Heq. subst f'.
    eauto.
Qed.

Lemma wide_table_cell (ns : list nutrient) (valid : gset Z)
    (fns : list food_nutrient) (f : Z) (cells : gmap string float) (c : string) :
  (f, cells) ∈ Pd.rows (wide_table ns valid fns) ->
  c ∈ all_nutrient_columns ns ->
  cells !! c = Some (expected_cell ns fns f c).
Proof.
  intros Hrow Hc.
  pose proof (WideFacts.wide_table_index _ _ _ _ _ Hrow) as (_ & _ & _ & Hv).
  unfold wide_table in Hrow. apply WideFacts.wide_all_cols_row in Hrow as [_ Hcell].
  rewrite Hcell, decide_True by exact Hc. f_equal.
  unfold expected_cell, first_measurement, pivot_cell.
  rewrite (pivot_ready_first ns valid fns f c Hv).
  destruct (head (filter _ fns)) as [m|] eqn:Hm; cbn.
  - rewrite decide_True; [reflexivity |].
    unfold pivot. cbn [Pd.columns]. apply PdFacts.elem_of_sorted_unique_str.
    apply list_elem_of_omap.
    assert (Hh : head (filter (fun r => pr_fdc_id r = f /\ pr_column_name r = Some c)
                         (df_fn_pivot_ready ns valid fns)) = Some (long_row ns m))
      by (rewrite (pivot_ready_first ns valid fns f c Hv), Hm; reflexivity).
    apply head_Some_elem_of, list_elem_of_filter in Hh as [[_ Hcol] Hin]. eauto.
  - destruct (decide _); reflexivity.
Qed.

End CellFacts.

(** ** Which foods reach the per-100g file, and with which values *)

Module FloatEdge.

Lemma is_nan_eq (x : float) : PrimFloat.is_nan x = true -> x = Py.NaN.
Proof.
  intros H. apply Prim2SF_inj. unfold Prim2SF at 1. rewrite H. reflexivity.
Qed.

Lemma nan_mul (x : float) : (Py.NaN * x)%float = Py.NaN.
Proof.
  apply Prim2SF_inj. rewrite mul_spec.
  change (Prim2SF Py.NaN) with S754_nan. reflexivity.
Qed.

Lemma fillna_not_nan (x : float) :
  PrimFloat.is_nan (Py.fillna Py.SENTINEL x) = false.
Proof.
  unfold Py.fillna. destruct (PrimFloat.is_nan x) eqn:H; [reflexivity | exact H].
Qed.

End FloatEdge.

Section Per100g.

Variable float_str : float -> string.

Variables (df_food : list food) (ns : list nutrient) (fns : list food_nutrient)
  (ps : list food_portion) (us : list measure_unit) (cs : list food_category)
  (b : option (list branded_food)).

Let dir : folder :=
  {| food_csv := Some df_food; nutrient_csv := Some ns;
     food_nutrient_csv := Some fns; food_portion_csv := Some ps;
     measure_unit_csv := Some us; food_category_csv := Some cs;
     branded_food_csv := b |}.
Let run := create_nutrition_csvs_final float_str dir.
Let foods := df_food_filtered df_food cs b.
Let valid := all_valid_fdc_ids foods.
Let cols := all_nutrient_columns ns.
Let wide := wide_table ns valid fns.

Lemma written_100g_inv (t : table row_100g) :
  written_100g run = Some t ->
  valid ≠ ∅
  /\ t = df_100g foods (final_nutrient_columns cols wide) (df_wide_filtered cols wide).
Proof.
  unfold run, dir. rewrite written_100g_run.
  destruct (decide (_ = ∅)) as [He|He]; [discriminate |].
  intros H. inversion H. auto.
Qed.

(** A row of the written per-100g table: its food, the wide row of its id
    before the sparse columns are dropped, and its cells. *)
Lemma written_100g_row (t : table row_100g) (r : row_100g) :
  written_100g run = Some t ->
  r ∈ body t ->
  r100_food r ∈ foods
  /\ exists cells, (fdc_id (r100_food r), cells) ∈ Pd.rows wide
       /\ forall c, c ∈ nutrient_header t ->
            c ∈ cols /\ r100_nutrients r !! c = cells !! c.
Proof.
  intros Ht Hr. apply written_100g_inv in Ht as [_ ->].
  apply df_100g_row in Hr as [Hf Hrow]. split; [exact Hf |].
  apply WideFacts.wide_filtered_row in Hrow as (cells & Hrow & Hcells).
  exists cells. split; [exact Hrow |]. intros c Hc. cbn [nutrient_header df_100g] in Hc.
  apply WideFacts.elem_of_final_nutrient_columns in Hc as [Hc Hkeep].
  split; [exact Hc |].
  rewrite Hcells, WideFacts.filtered_cell_lookup, decide_False by exact Hkeep.
  reflexivity.
Qed.

(** X3. A food id has a row in foods_per_100g.csv if and only if it is the
    id of a food of food.csv with a valid data type and the food-nutrient
    table holds at least one measurement for it. *)
Theorem per_100g_rows_iff (f : Z) :
  (exists t r, written_100g run = Some t /\ r ∈ body t /\ fdc_id (r100_food r) = f)
  <-> (exists x, x ∈ df_food /\ food_fdc_id x = f
                 /\ food_data_type x ∈ VALID_FOOD_TYPES)
      /\ (exists m, m ∈ fns /\ fn_fdc_id m = f).
Proof.
  split.
  - intros (t & r & Ht & Hr & Hf).
    destruct (written_100g_row t r Ht Hr) as (_ & cells & Hrow & _).
    rewrite Hf in Hrow.
    assert (Hex : exists cells, (f, cells) ∈ Pd.rows wide) by eauto.
    apply CellFacts.wide_table_row_iff in Hex as [Hv Hm].
    split; [apply valid_ids_spec in Hv; exact Hv | exact Hm].
  - intros [Hx Hm].
    assert (Hv : f ∈ valid) by (apply valid_ids_spec; exact Hx).
    assert (Hne : valid ≠ ∅) by (intros He; rewrite He in Hv; inversion Hv).
    assert (Hrow : exists cells, (f, cells) ∈ Pd.rows wide)
      by (apply CellFacts.wide_table_row_iff; auto).
    destruct Hrow as [cells Hrow].
    unfold valid, all_valid_fdc_ids in Hv.
    apply elem_of_list_to_set, list_elem_of_fmap in Hv as (fr & Hid & Hfr).
    eexists.
    exists {| r100_food := fr;
              r100_nutrients :=
                filter (fun kv : string * float => kv.1 ∉ columns_to_drop cols wide)
                       cells |}.
    split; [| split].
    + unfold run, dir. rewrite written_100g_run.
      rewrite decide_False by exact Hne. reflexivity.
    + apply df_100g_row. cbn. split; [exact Hfr |].
      apply WideFacts.wide_filtered_row. exists cells. rewrite <- Hid.
      split; [exact Hrow | reflexivity].
    + cbn. auto.
Qed.


(** X6. No cell of foods_per_100g.csv is NaN: an empty amount and a pair
    without a measurement are both written as -1.0. *)
Theorem per_100g_has_no_nan (t : table row_100g) :
  written_100g run = Some t ->
  Forall (fun r =>
            map_Forall (fun _ v => PrimFloat.is_nan v = false) (r100_nutrients r))
         (body t).
Proof.
  intros Ht. apply Forall_forall. intros r Hr c v Hv.
  pose proof (written_100g_inv t Ht) as [_ Heq].
  assert (Hin : c ∈ nutrient_header t).
  { rewrite Heq in Hr |- *. cbn [nutrient_header df_100g].
    apply df_100g_row in Hr as [_ Hrow].
    apply (wide_filtered_columns _ _ _ _ _ c Hrow). eauto. }
  destruct (written_100g_row t r Ht Hr) as (_ & cells & Hrow & Hcell).
  destruct (Hcell c Hin) as [Hcol Hlook].
  rewrite Hlook, (CellFacts.wide_table_cell _ _ _ _ _ _ Hrow Hcol) in Hv.
  inversion Hv. unfold expected_cell.
  destruct (first_measurement _ _ _ _); [| reflexivity].
  apply FloatEdge.fillna_not_nan.
Qed.

End Per100g.

(** ** The per-serving file *)

Module ServingFacts.

(** A row that [drop_duplicates] drops has an equal row that is kept. *)
Lemma drop_duplicates_from_covers {A} (same : A -> A -> bool)
    (seen l : list A) (x : A) :
  x ∈ l ->
  x ∈ Pd.drop_duplicates_from same seen l
  \/ exists y, (y ∈ seen \/ y ∈ Pd.drop_duplicates_from same seen l)
               /\ same x y = true.
Proof.
  revert seen. induction l as [|z l IH]; intros seen Hx; [inversion Hx |].
  cbn [Pd.drop_duplicates_from].
  destruct (existsb (same z) seen) eqn:Hex.
  - apply elem_of_cons in Hx as [->|Hx].
    + right. apply existsb_exists in Hex as (y & Hy & Hs).
      exists y. split; [left; apply list_elem_of_In, Hy | exact Hs].
    + exact (IH seen Hx).
  - apply elem_of_cons in Hx as [->|Hx]; [left; left |].
    destruct (IH (z :: seen) Hx) as [Hin|(y & Hy & Hs)].
    + left. right. exact Hin.
    + right. exists y. split; [| exact Hs].
      destruct Hy as [Hy|Hy].
      * apply elem_of_cons in Hy as [->|Hy]; [right; left | left; exact Hy].
      * right. right. exact Hy.
Qed.

Lemma drop_duplicates_covers {A} (same : A -> A -> bool) (l : list A) (x : A) :
  x ∈ l ->
  exists y, y ∈ Pd.drop_duplicates same l /\ (y = x \/ same x y = true).
Proof.
  intros Hx. destruct (drop_duplicates_from_covers same [] l x Hx) as [H|(y & [Hy|Hy] & Hs)].
  - eauto.
  - inversion Hy.
  - eauto.
Qed.


Lemma NoDup_all_nutrient_columns (ns : list nutrient) :
  NoDup (all_nutrient_columns ns).
Proof.
  unfold all_nutrient_columns, Pd.sorted_unique_str.
  rewrite merge_sort_Permutation. apply NoDup_remove_dups.
Qed.

Lemma NoDup_final_nutrient_columns (ns : list nutrient) (df : Pd.wide) :
  NoDup (final_nutrient_columns (all_nutrient_columns ns) df).
Proof.
  unfold final_nutrient_columns.
  destruct (columns_to_drop _ df); [| apply NoDup_filter];
    apply NoDup_all_nutrient_columns.
Qed.

End ServingFacts.

Section PerServing.

Variable float_str : float -> string.

Variables (df_food : list food) (ns : list nutrient) (fns : list food_nutrient)
  (ps : list food_portion) (us : list measure_unit) (cs : list food_category)
  (b : option (list branded_food)).

Let dir : folder :=
  {| food_csv := Some df_food; nutrient_csv := Some ns;
     food_nutrient_csv := Some fns; food_portion_csv := Some ps;
     measure_unit_csv := Some us; food_category_csv := Some cs;
     branded_food_csv := b |}.
Let run := create_nutrition_csvs_final float_str dir.
Let foods := df_food_filtered df_food cs b.
Let valid := all_valid_fdc_ids foods.
Let cols := all_nutrient_columns ns.
Let wide := wide_table ns valid fns.
Let final_cols := final_nutrient_columns cols wide.
Let wide_filtered := df_wide_filtered cols wide.
Let servings :=
  df_servings_base float_str (df_portion_full (df_portion_filtered valid ps) us).

Lemma written_serving_inv (ts : table row_serving) :
  written_serving run = Some ts ->
  valid ≠ ∅
  /\ df_portion_filtered valid ps ≠ []
  /\ ts = df_per_serving_final foods final_cols
            (df_per_serving servings final_cols wide_filtered).
Proof.
  unfold run, dir. rewrite written_serving_run.
  destruct (decide (_ = ∅)) as [He|He]; [discriminate |].
  unfold servings. fold foods valid.
  destruct (df_portion_filtered valid ps) as [|p l] eqn:Hp; [discriminate |].
  intros H. inversion H. repeat split; auto.
Qed.

Lemma written_serving_intro :
  valid ≠ ∅ ->
  df_portion_filtered valid ps ≠ [] ->
  written_serving run
  = Some (df_per_serving_final foods final_cols
            (df_per_serving servings final_cols wide_filtered)).
Proof.
  intros Hv Hp. unfold run, dir. rewrite written_serving_run.
  rewrite decide_False by exact Hv. unfold servings. fold foods valid.
  destruct (df_portion_filtered valid ps); [contradiction | reflexivity].
Qed.

(** Where a serving comes from. *)
Lemma serving_origin (s : serving) :
  s ∈ servings ->
  exists p u, p ∈ ps /\ u ∈ us
    /\ valid_portion valid p = true
    /\ portion_measure_unit_id p = measure_unit_id u
    /\ s = {| sv_fdc_id := portion_fdc_id p;
              serving_description := make_serving_description float_str (p, u);
              serving_size_g := portion_gram_weight p |}.
Proof.
  unfold servings, df_servings_base, df_portion_full, df_portion_filtered. intros Hs.
  apply PdFacts.elem_of_drop_duplicates in Hs.
  apply list_elem_of_fmap in Hs as ([p u] & -> & Hpu).
  apply PdFacts.elem_of_merge_inner in Hpu as (p' & u' & Hp & Hu & Hk & Heq).
  inversion Heq; subst p' u'.
  apply list_elem_of_filter in Hp as [Hvp Hp].
  apply bool_decide_eq_true_1 in Hk.
  exists p, u. repeat split; assumption.
Qed.

Lemma per_serving_row_origin (ts : table row_serving) (r : row_serving) :
  written_serving run = Some ts ->
  r ∈ body ts ->
  exists p u, p ∈ ps /\ u ∈ us
    /\ portion_measure_unit_id p = measure_unit_id u
    /\ portion_fdc_id p = fdc_id (rs_food r)
    /\ portion_fdc_id p ∈ valid
    /\ PrimFloat.is_nan (portion_gram_weight p) = false
    /\ PrimFloat.ltb 0 (portion_gram_weight p) = true
    /\ serving_size_g (rs_serving r) = portion_gram_weight p
    /\ serving_description (rs_serving r)
       = make_serving_description float_str (p, u).
Proof.
  intros Ht Hr. apply written_serving_inv in Ht as (_ & _ & ->).
  apply df_per_serving_final_row in Hr as (_ & Hs & Hid & _).
  apply serving_origin in Hs as (p & u & Hp & Hu & Hvp & Hk & Hs).
  unfold valid_portion, Py.notna in Hvp.
  apply andb_prop in Hvp as [Hvp Hpos]. apply andb_prop in Hvp as [Hin Hna].
  apply bool_decide_eq_true_1 in Hin. apply negb_true_iff in Hna.
  exists p, u. rewrite Hs in Hid |- *. cbn in Hid |- *.
  repeat split; auto.
Qed.

(** X7. Every row of foods_per_serving.csv comes from a portion of
    food_portion.csv whose food is valid, whose gram weight is present and
    positive, and whose measure unit id has a row in measure_unit.csv; the
    row carries that weight as its serving size and the description made
    from that portion and unit. *)
Theorem per_serving_rows_come_from_valid_portions (ts : table row_serving) :
  written_serving run = Some ts ->
  Forall (fun r =>
            exists p u, p ∈ ps /\ u ∈ us
              /\ portion_measure_unit_id p = measure_unit_id u
              /\ portion_fdc_id p = fdc_id (rs_food r)
              /\ portion_fdc_id p ∈ valid
              /\ PrimFloat.is_nan (portion_gram_weight p) = false
              /\ PrimFloat.ltb 0 (portion_gram_weight p) = true
              /\ serving_size_g (rs_serving r) = portion_gram_weight p
              /\ serving_description (rs_serving r)
                 = make_serving_description float_str (p, u))
         (body ts).
Proof.
  intros Ht. apply Forall_forall. intros r Hr.
  exact (per_serving_row_origin ts r Ht Hr).
Qed.


(** X9. A food id has a row in foods_per_serving.csv if and only if it is
    the id of a valid food with at least one measurement and with a portion
    whose gram weight is present and positive and whose measure unit id is
    in measure_unit.csv: a portion with an unknown measure unit is left out
    without a message. *)
Theorem per_serving_rows_iff (f : Z) :
  (exists ts r, written_serving run = Some ts /\ r ∈ body ts
                /\ fdc_id (rs_food r) = f)
  <-> (exists x, x ∈ df_food /\ food_fdc_id x = f
                 /\ food_data_type x ∈ VALID_FOOD_TYPES)
      /\ (exists m, m ∈ fns /\ fn_fdc_id m = f)
      /\ (exists p u, p ∈ ps /\ u ∈ us /\ portion_fdc_id p = f
                      /\ PrimFloat.is_nan (portion_gram_weight p) = false
                      /\ PrimFloat.ltb 0 (portion_gram_weight p) = true
                      /\ portion_measure_unit_id p = measure_unit_id u).
Proof.
  split.
  - intros (ts & r & Hts & Hr & Hf).
    destruct (per_serving_row_origin ts r Hts Hr)
      as (p & u & Hp & Hu & Hk & Hid & Hv & Hna & Hpos & _).
    apply written_serving_inv in Hts as (_ & _ & ->).
    apply df_per_serving_final_row in Hr as (_ & _ & Hid' & cells & Hrow & _).
    apply WideFacts.wide_filtered_row in Hrow as (cells0 & Hrow & _).
    rewrite <- Hid', Hf in Hrow.
    assert (Hex : exists cells, (f, cells) ∈ Pd.rows wide) by eauto.
    apply CellFacts.wide_table_row_iff in Hex as [Hvf Hm].
    split; [apply valid_ids_spec in Hvf; exact Hvf |]. split; [exact Hm |].
    exists p, u. rewrite Hid, Hf. repeat split; auto.
  - intros (Hx & Hm & p & u & Hp & Hu & Hpf & Hna & Hpos & Hk).
    assert (Hv : f ∈ valid) by (apply valid_ids_spec; exact Hx).
    assert (Hne : valid ≠ ∅) by (intros He; rewrite He in Hv; inversion Hv).
    assert (Hvp : valid_portion valid p = true).
    { unfold valid_portion, Py.notna. rewrite Hpf, Hna, Hpos.
      rewrite bool_decide_eq_true_2 by exact Hv. reflexivity. }
    assert (Hpin : p ∈ df_portion_filtered valid ps)
      by (apply list_elem_of_filter; auto).
    assert (Hpne : df_portion_filtered valid ps ≠ [])
      by (intros He; rewrite He in Hpin; inversion Hpin).
    set (s0 := {| sv_fdc_id := portion_fdc_id p;
                  serving_description := make_serving_description float_str (p, u);
                  serving_size_g := portion_gram_weight p |}).
    assert (Hs0 : exists s, s ∈ servings /\ sv_fdc_id s = f).
    { destruct (ServingFacts.drop_duplicates_covers same_serving
                  ((fun row : food_portion * measure_unit =>
                      {| sv_fdc_id := portion_fdc_id row.1;
                         serving_description := make_serving_description float_str row;
                         serving_size_g := portion_gram_weight row.1 |})
                   <$> df_portion_full (df_portion_filtered valid ps) us) s0)
        as (s & Hs & Heq).
      - apply list_elem_of_fmap. exists (p, u). split; [reflexivity |].
        apply PdFacts.elem_of_merge_inner. exists p, u.
        repeat split; auto. apply bool_decide_eq_true_2, Hk.
      - exists s. split; [exact Hs |].
        destruct Heq as [->|Heq]; [exact Hpf |].
        unfold same_serving in Heq.
        apply andb_prop in Heq as [Heq _]. apply andb_prop in Heq as [Heq _].
        apply bool_decide_eq_true_1 in Heq. cbn in Heq. congruence. }
    destruct Hs0 as (s & Hs & Hsf).
    assert (Hrow : exists cells, (f, cells) ∈ Pd.rows wide)
      by (apply CellFacts.wide_table_row_iff; auto).
    destruct Hrow as [cells Hrow].
    unfold valid, all_valid_fdc_ids in Hv.
    apply elem_of_list_to_set, list_elem_of_fmap in Hv as (fr & Hid & Hfr).
    eexists.
    exists {| rs_food := fr; rs_serving := s;
              rs_nutrients :=
                scale_row final_cols (serving_size_g s)
                  (filter (fun kv : string * float => kv.1 ∉ columns_to_drop cols wide)
                          cells) |}.
    split; [apply written_serving_intro; assumption |]. split; [| cbn; auto].
    apply df_per_serving_final_row. cbn. repeat split; [exact Hfr | exact Hs | congruence |].
    eexists. split; [| reflexivity].
    apply WideFacts.wide_filtered_row. exists cells. rewrite Hsf. auto.
Qed.

End PerServing.

(** ** Order of the columns and of the rows *)

Module OrderFacts.

Lemma leb_cons (x y : ascii) (a b : string) :
  String.leb (String x a) (String y b) = true <->
  (N_of_ascii x < N_of_ascii y)%N \/ (x = y /\ String.leb a b = true).
Proof.
  unfold String.leb. cbn [String.compare]. unfold Ascii.compare.
  destruct (N.compare_spec (N_of_ascii x) (N_of_ascii y)) as [Heq|Hlt|Hgt].
  - assert (x = y) by (rewrite <- (ascii_N_embedding x), <- (ascii_N_embedding y); congruence).
    subst y. split; [auto | intros [H|[_ H]]; [lia | exact H]].
  - split; [auto | reflexivity].
  - split; [discriminate |]. intros [H|[-> _]]; lia.
Qed.

Lemma str_le_trans : Transitive Pd.str_le.
Proof.
  unfold Pd.str_le. intros a. induction a as [|x a IH]; intros b c Hab Hbc.
  - destruct c; reflexivity.
  - destruct b as [|y b]; [discriminate |].
    destruct c as [|z c]; [discriminate |].
    apply leb_cons in Hab. apply leb_cons in Hbc. apply leb_cons.
    destruct Hab as [Hab|[-> Hab]], Hbc as [Hbc|[-> Hbc]].
    + left. lia.
    + left. exact Hab.
    + left. exact Hbc.
    + right. split; [reflexivity |]. exact (IH b c Hab Hbc).
Qed.

Lemma str_le_total : Total Pd.str_le.
Proof. intros a b. apply String.leb_total. Qed.

Lemma str_le_antisym (a b : string) : Pd.str_le a b -> Pd.str_le b a -> a = b.
Proof. apply String.leb_antisym. Qed.

Lemma str_le_refl (a : string) : Pd.str_le a a.
Proof. destruct (str_le_total a a); assumption. Qed.

Lemma by_description_trans : Transitive by_description.
Proof. intros a b c. unfold by_description. apply str_le_trans. Qed.

Lemma by_description_total : Total by_description.
Proof. intros a b. unfold by_description. apply str_le_total. Qed.

Lemma by_description_serving_total : Total by_description_serving.
Proof.
  intros a b. unfold by_description_serving.
  rewrite (String.eqb_sym (description (rs_food b))).
  destruct (String.eqb _ _); apply str_le_total.
Qed.

Lemma by_description_serving_trans : Transitive by_description_serving.
Proof.
  intros a b c. unfold by_description_serving.
  destruct (String.eqb_spec (description (rs_food a)) (description (rs_food b))) as [Hab|Hab],
           (String.eqb_spec (description (rs_food b)) (description (rs_food c))) as [Hbc|Hbc],
           (String.eqb_spec (description (rs_food a)) (description (rs_food c))) as [Hac|Hac];
    intros H1 H2; try congruence.
  - exact (str_le_trans _ _ _ H1 H2).
  - exfalso. apply Hab. apply str_le_antisym; [exact H1 |]. rewrite Hac. exact H2.
  - exact (str_le_trans _ _ _ H1 H2).
Qed.

Lemma StronglySorted_filter {A} (R : relation A) (P : A -> Prop)
    `{!forall x, Decision (P x)} (l : list A) :
  StronglySorted R l -> StronglySorted R (filter P l).
Proof.
  induction 1 as [|x l Hs IH Hall]; [constructor |].
  rewrite filter_cons. destruct (decide (P x)); [| exact IH].
  constructor; [exact IH |].
  rewrite Forall_forall in Hall |- *. intros y Hy.
  apply list_elem_of_filter in Hy as [_ Hy]. auto.
Qed.

Lemma all_nutrient_columns_sorted (ns : list nutrient) :
  StronglySorted Pd.str_le (all_nutrient_columns ns).
Proof.
  unfold all_nutrient_columns, Pd.sorted_unique_str.
  apply StronglySorted_merge_sort; [apply str_le_trans | apply str_le_total].
Qed.

Lemma final_nutrient_columns_sorted (ns : list nutrient) (df : Pd.wide) :
  StronglySorted Pd.str_le (final_nutrient_columns (all_nutrient_columns ns) df).
Proof.
  unfold final_nutrient_columns.
  destruct (columns_to_drop _ df); [| apply StronglySorted_filter];
    apply all_nutrient_columns_sorted.
Qed.

End OrderFacts.

Section Ordering.

Variable float_str : float -> string.

Variables (df_food : list food) (ns : list nutrient) (fns : list food_nutrient)
  (ps : list food_portion) (us : list measure_unit) (cs : list food_category)
  (b : option (list branded_food)).

Let dir : folder :=
  {| food_csv := Some df_food; nutrient_csv := Some ns;
     food_nutrient_csv := Some fns; food_portion_csv := Some ps;
     measure_unit_csv := Some us; food_category_csv := Some cs;
     branded_food_csv := b |}.
Let run := create_nutrition_csvs_final float_str dir.

(** X10. The nutrient columns of foods_per_100g.csv are in ascending order
    of their names, by character code, without repetition, and each is the
    column name ["<name> (<unit>)"] of a nutrient of nutrient.csv. *)
Theorem per_100g_header_sorted_unique (t : table row_100g) :
  written_100g run = Some t ->
  StronglySorted (fun a b => String.leb a b = true) (nutrient_header t)
  /\ NoDup (nutrient_header t)
  /\ Forall (fun c => exists n, n ∈ ns /\ c = column_name n) (nutrient_header t).
Proof.
  intros Ht. apply written_100g_inv in Ht as [_ ->]. cbn [nutrient_header df_100g].
  split; [apply OrderFacts.final_nutrient_columns_sorted |].
  split; [apply ServingFacts.NoDup_final_nutrient_columns |].
  apply Forall_forall. intros c Hc.
  apply WideFacts.elem_of_final_nutrient_columns in Hc as [Hc _].
  apply PdFacts.elem_of_sorted_unique_str, list_elem_of_fmap in Hc as (n & -> & Hn).
  eauto.
Qed.

(** X11. The rows of foods_per_100g.csv are in ascending order of their
    descriptions, and the rows of foods_per_serving.csv in ascending order
    of their descriptions and, for equal descriptions, of their serving
    descriptions. *)
Theorem output_rows_sorted :
  (forall t, written_100g run = Some t ->
     StronglySorted
       (fun r1 r2 => String.leb (description (r100_food r1))
                                (description (r100_food r2)) = true)
       (body t))
  /\ (forall ts, written_serving run = Some ts ->
        StronglySorted
          (fun r1 r2 =>
             if String.eqb (description (rs_food r1)) (description (rs_food r2))
             then String.leb (serving_description (rs_serving r1))
                             (serving_description (rs_serving r2)) = true
             else String.leb (description (rs_food r1))
                             (description (rs_food r2)) = true)
          (body ts)).
Proof.
  split.
  - intros t Ht. apply written_100g_inv in Ht as [_ ->]. cbn [body df_100g].
    exact (@StronglySorted_merge_sort _ by_description _
             OrderFacts.by_description_trans OrderFacts.by_description_total _).
  - intros ts Hts. apply written_serving_inv in Hts as (_ & _ & ->).
    cbn [body df_per_serving_final].
    exact (@StronglySorted_merge_sort _ by_description_serving _
             OrderFacts.by_description_serving_trans
             OrderFacts.by_description_serving_total _).
Qed.

End Ordering.

(** ** What an ingredient can look like *)

Module IngredientFacts.








Section Pieces.

Variable P : ascii -> Prop.


End Pieces.











End IngredientFacts.


(** ** Edge cases of the measurements *)

Section MeasurementEdges.

Variable float_str : float -> string.

Variables (df_food : list food) (ns : list nutrient) (fns : list food_nutrient)
  (ps : list food_portion) (us : list measure_unit) (cs : list food_category)
  (b : option (list branded_food)).

Let dir : folder :=
  {| food_csv := Some df_food; nutrient_csv := Some ns;
     food_nutrient_csv := Some fns; food_portion_csv := Some ps;
     measure_unit_csv := Some us; food_category_csv := Some cs;
     branded_food_csv := b |}.
Let run := create_nutrition_csvs_final float_str dir.
Let valid := all_valid_fdc_ids (df_food_filtered df_food cs b).

(** X5. When the first measurement of a food for a column has an empty
    amount, the cell written to foods_per_100g.csv is -1.0, also when a
    later measurement of the same food and column has an amount: the later
    one was dropped as a duplicate before the fill. *)
Theorem empty_first_amount_gives_sentinel
    (t : table row_100g) (f : Z) (c : string) (m : food_nutrient) :
  written_100g run = Some t ->
  head (filter (fun m => fn_fdc_id m = f
                         /\ id_to_column ns !! fn_nutrient_id m = Some c) fns)
    = Some m ->
  PrimFloat.is_nan (fn_amount m) = true ->
  Forall (fun r =>
            fdc_id (r100_food r) = f -> c ∈ nutrient_header t ->
            r100_nutrients r !! c = Some (-1.0)%float)
         (body t).
Proof.
  intros Ht Hm Hnan. apply Forall_forall. intros r Hr Hf Hc.
  destruct (written_100g_row _ _ _ _ _ _ _ _ t r Ht Hr) as (_ & cells & Hrow & Hcell).
  destruct (Hcell c Hc) as [Hcol ->].
  rewrite (CellFacts.wide_table_cell _ _ _ _ _ _ Hrow Hcol).
  unfold expected_cell, first_measurement.
  rewrite Hf, Hm. rewrite (FloatEdge.is_nan_eq _ Hnan), FloatEdge.nan_mul.
  reflexivity.
Qed.

Lemma filter_nil_all {A} (P : A -> Prop) `{!forall x, Decision (P x)} (l : list A) :
  (forall x, x ∈ l -> ~ P x) -> filter P l = [].
Proof.
  intros Hall. induction l as [|x l IH]; [reflexivity |].
  rewrite filter_cons_False by (apply Hall; left).
  apply IH. intros y Hy. apply Hall. right. exact Hy.
Qed.

Lemma merge_inner_nil_r {A B C} (same_key : A -> B -> bool) (join : A -> B -> C)
    (l : list A) :
  Pd.merge_inner same_key join l [] = [].
Proof. unfold Pd.merge_inner. induction l as [|a l IH]; [reflexivity | exact IH]. Qed.

(** X13. When there is a valid food and no measurement at all belongs to a
    valid food, foods_per_100g.csv is still written: it has every nutrient
    column, none being dropped as sparse, and no row. *)
Theorem no_measurement_gives_empty_table :
  valid ≠ ∅ ->
  (forall m, m ∈ fns -> fn_fdc_id m ∉ valid) ->
  written_100g run
  = Some {| nutrient_header := all_nutrient_columns ns; body := [] |}.
Proof.
  intros Hv Hnone. unfold run, dir. rewrite written_100g_run.
  fold valid. rewrite decide_False by exact Hv. f_equal.
  assert (Hwide : wide_table ns valid fns
                  = {| Pd.columns := all_nutrient_columns ns; Pd.rows := [] |}).
  { unfold wide_table, df_fn_pivot_ready.
    rewrite (filter_nil_all (fun m => fn_fdc_id m ∈ valid) fns) by exact Hnone.
    reflexivity. }
  rewrite Hwide.
  assert (Hdrop : columns_to_drop (all_nutrient_columns ns)
                    {| Pd.columns := all_nutrient_columns ns; Pd.rows := [] |} = []).
  { unfold columns_to_drop. apply filter_nil_all. intros c _. cbn. discriminate. }
  unfold final_nutrient_columns, df_wide_filtered, df_100g. rewrite Hdrop.
  cbn [Pd.rows]. rewrite merge_inner_nil_r. reflexivity.
Qed.

End MeasurementEdges.

(** ** The nutrient dictionaries *)

Lemma to_dict_lookup {V} (value : nutrient -> V) (df_nutrient : list nutrient) (i : Z) :
  to_dict value df_nutrient !! i
  = value <$> last (filter (fun n => nutrient_id n = i) df_nutrient).
Proof.
  unfold to_dict. induction df_nutrient as [|n l IH] using rev_ind; [reflexivity |].
  rewrite foldl_app, filter_app. cbn [foldl].
  rewrite lookup_insert, filter_cons, filter_nil.
  destruct (decide (nutrient_id n = i)) as [Heq|Hne].
  - rewrite last_snoc. reflexivity.
  - rewrite app_nil_r. exact IH.
Qed.

(** X14. The column and the conversion factor of a nutrient id are those
    of the last row of nutrient.csv with that id, both from the same row;
    a nutrient id that nutrient.csv does not hold has no column, so its
    measurements reach no column of the output, and its factor is NaN. *)
Theorem nutrient_dictionaries_agree (df_nutrient : list nutrient) (i : Z) :
  match last (filter (fun n => nutrient_id n = i) df_nutrient) with
  | Some n =>
      id_to_column df_nutrient !! i = Some (column_name n)
      /\ Py.map_float (id_to_converter df_nutrient) i = conversion_factor n
      /\ column_name n ∈ all_nutrient_columns df_nutrient
  | None =>
      id_to_column df_nutrient !! i = None
      /\ PrimFloat.is_nan (Py.map_float (id_to_converter df_nutrient) i) = true
      /\ i ∉ nutrient_id <$> df_nutrient
  end.
Proof.
  unfold id_to_column, id_to_converter, Py.map_float. rewrite !to_dict_lookup.
  destruct (last (filter _ df_nutrient)) as [n|] eqn:Hl.
  - repeat split. apply PdFacts.elem_of_sorted_unique_str, list_elem_of_fmap_2.
    apply last_Some_elem_of, list_elem_of_filter in Hl. tauto.
  - repeat split. apply last_None in Hl.
    intros Hin. apply list_elem_of_fmap in Hin as (n & -> & Hn).
    assert (Hf : n ∈ filter (fun n0 => nutrient_id n0 = nutrient_id n) df_nutrient)
      by (apply list_elem_of_filter; auto).
    rewrite Hl in Hf. inversion Hf.
Qed.

(** ** Category, brand and ingredients of a food *)

Lemma add_category_row (l : list food) (cs : list food_category) (fr : food_row) :
  fr ∈ add_category l cs ->
  exists x, x ∈ l
    /\ fdc_id fr = food_fdc_id x
    /\ description fr = food_description x
    /\ (category fr = "Unknown"
        \/ exists cat, cat ∈ cs /\ food_category_id x = Some (category_id cat)
                       /\ category_description cat = Some (category fr))
    /\ ((forall cat, cat ∈ cs -> food_category_id x ≠ Some (category_id cat)) ->
        category fr = "Unknown").
Proof.
  unfold add_category. intros H.
  apply MergeFacts.elem_of_merge_left in H as (x & Hx & [(cat & Hcat & Hk & ->)|[Hno ->]]);
    exists x; cbn; repeat split; auto.
  - apply bool_decide_eq_true_1 in Hk.
    destruct (category_description cat) as [d|] eqn:Hd; cbn; [| auto].
    right. exists cat. auto.
  - apply bool_decide_eq_true_1 in Hk. intros Hnone. exfalso. exact (Hnone cat Hcat Hk).
Qed.

(** X15. Every row of the filtered food table is a food of food.csv with a
    valid data type and keeps its id.  Its category is ["Unknown"] or the
    description of a category row with the food's category id, and
    ["Unknown"] when no category row has that id.  Without
    branded_food.csv, or without a branded row of its id, its description
    is the one of food.csv and its ingredient list is empty; otherwise the
    description has the brand prefix of a branded row of its id in front
    and the ingredients are the parsed ingredients of that row. *)
Theorem enriched_food_rows (df_food : list food) (cs : list food_category)
    (b : option (list branded_food)) :
  Forall (fun fr =>
    exists x, x ∈ df_food
      /\ food_data_type x ∈ VALID_FOOD_TYPES
      /\ fdc_id fr = food_fdc_id x
      /\ (category fr = "Unknown"
          \/ exists cat, cat ∈ cs /\ food_category_id x = Some (category_id cat)
                         /\ category_description cat = Some (category fr))
      /\ ((forall cat, cat ∈ cs -> food_category_id x ≠ Some (category_id cat)) ->
          category fr = "Unknown")
      /\ ((description fr = food_description x /\ ingredients fr = []
           /\ forall brands br, b = Some brands -> br ∈ brands ->
                                branded_fdc_id br ≠ food_fdc_id x)
          \/ exists brands br, b = Some brands /\ br ∈ brands
                /\ branded_fdc_id br = food_fdc_id x
                /\ description fr
                   = create_brand_prefix (default "" (brand_owner br))
                                         (default "" (brand_name br))
                     +:+ food_description x
                /\ ingredients fr = process_ingredients (branded_ingredients br)))
    (df_food_filtered df_food cs b).
Proof.
  apply Forall_forall. intros fr Hfr. unfold df_food_filtered, add_brand in Hfr.
  destruct b as [brands|].
  - apply MergeFacts.elem_of_merge_left in Hfr
      as (f0 & Hf0 & [(bi & Hbi & Hk & ->)|[Hno ->]]);
      apply add_category_row in Hf0 as (x & Hx & Hid & Hd & Hcat & Hunk);
      apply list_elem_of_filter in Hx as [Ht Hx];
      exists x; cbn; repeat split; auto.
    + right. apply bool_decide_eq_true_1 in Hk.
      unfold df_brand_info in Hbi. apply list_elem_of_fmap in Hbi as (br & -> & Hbr).
      cbn in Hk |- *. exists brands, br. rewrite Hd.
      repeat split; auto; congruence.
    + left. split; [exact Hd |]. split; [reflexivity |].
      intros brands' br Heq Hbr Hbid.
      inversion Heq; subst brands'.
      apply (Hno {| bi_fdc_id := branded_fdc_id br;
                    bi_brand_prefix :=
                      create_brand_prefix (default "" (brand_owner br))
                                          (default "" (brand_name br));
                    bi_ingredients := process_ingredients (branded_ingredients br) |}).
      * unfold df_brand_info. apply list_elem_of_fmap. eauto.
      * apply bool_decide_eq_true_2. cbn. congruence.
  - apply list_elem_of_fmap in Hfr as (f0 & -> & Hf0).
    apply add_category_row in Hf0 as (x & Hx & Hid & Hd & Hcat & Hunk).
    apply list_elem_of_filter in Hx as [Ht Hx].
    exists x. cbn. repeat split; auto.
    all: left; split; [exact Hd |]; split; [reflexivity |];
      intros brands br Heq; discriminate.
Qed.

(** ** The servings are distinct *)

Lemma drop_duplicates_from_distinct {A} (same : A -> A -> bool) (seen l : list A) :
  Forall (fun x => existsb (same x) seen = false) (Pd.drop_duplicates_from same seen l)
  /\ ForallOrdPairs (fun x y => same y x = false) (Pd.drop_duplicates_from same seen l).
Proof.
  revert seen. induction l as [|z l IH]; intros seen; cbn [Pd.drop_duplicates_from].
  - split; constructor.
  - destruct (existsb (same z) seen) eqn:Hex; [apply IH |].
    destruct (IH (z :: seen)) as [Hall Hpairs]. split.
    + constructor; [exact Hex |].
      eapply Forall_impl; [exact Hall |]. cbn. intros x Hx.
      apply orb_false_iff in Hx. tauto.
    + constructor; [| exact Hpairs].
      eapply Forall_impl; [exact Hall |]. cbn. intros x Hx.
      apply orb_false_iff in Hx. tauto.
Qed.

(** X16. In the table of servings no row repeats an earlier one: of two
    rows, the later one differs from the earlier one in the food id, in the
    serving description or in the serving size. *)
Theorem servings_are_distinct (float_str : float -> string)
    (full : list (food_portion * measure_unit)) :
  ForallOrdPairs
    (fun s1 s2 =>
       sv_fdc_id s2 ≠ sv_fdc_id s1
       \/ serving_description s2 ≠ serving_description s1
       \/ PrimFloat.eqb (serving_size_g s2) (serving_size_g s1) = false)
    (df_servings_base float_str full).
Proof.
  unfold df_servings_base, Pd.drop_duplicates.
  destruct (drop_duplicates_from_distinct same_serving []
              ((fun row : food_portion * measure_unit =>
                  {| sv_fdc_id := portion_fdc_id row.1;
                     serving_description := make_serving_description float_str row;
                     serving_size_g := portion_gram_weight row.1 |}) <$> full))
    as [_ Hpairs].
  induction Hpairs as [|s l Hall Hpairs IH]; constructor; [| exact IH].
  eapply Forall_impl; [exact Hall |]. cbn. intros s2 Hs.
  unfold same_serving in Hs.
  apply andb_false_iff in Hs as [Hs|Hs]; [| auto].
  apply andb_false_iff in Hs as [Hs|Hs].
  - left. apply bool_decide_eq_false in Hs. exact Hs.
  - right. left. apply String.eqb_neq in Hs. exact Hs.
Qed.

(** ** The further properties on the samples *)

Lemma sample_valid_ids :
  all_valid_fdc_ids (df_food_filtered Sample.foods Sample.categories (Some Sample.brands))
  ≠ ∅.
Proof.
  intros He. apply (f_equal elements) in He. vm_compute in He. discriminate.
Qed.

Lemma repeated_written_100g :
  written_100g (create_nutrition_csvs_final Sample.float_str Repeated.dir)
  = Some Repeated.per_100g.
Proof.
  unfold Repeated.dir. rewrite written_100g_run.
  rewrite decide_False by exact sample_valid_ids. reflexivity.
Qed.

Lemma repeated_written_serving :
  written_serving (create_nutrition_csvs_final Sample.float_str Repeated.dir)
  = Some Repeated.per_serving.
Proof.
  unfold Repeated.dir. rewrite written_serving_intro; [reflexivity | |].
  - exact sample_valid_ids.
  - intros He. vm_compute in He. discriminate.
Qed.

(** The run on the second sample: the empty first amount of sodium for
    food 1 hides the 500 that follows, and the first energy amount 12 wins
    over the 99 that follows. *)
Example repeated_run :
  (fun t => (fun r => (fdc_id (r100_food r),
                       (fun c => r100_nutrients r !! c) <$> nutrient_header t))
              <$> body t) Repeated.per_100g
  = [(1, [Some 12%float; Some (-1.0)%float; Some (-1.0)%float]);
     (4, [Some 80%float; Some 0.003%float; Some 0.25%float])]
  /\ nutrient_header Repeated.per_100g = ["Energy (KCAL)"; "Iron (G)"; "Sodium (G)"]
  /\ (fun t => (fun r => (fdc_id (rs_food r), serving_size_g (rs_serving r),
                          (fun c => rs_nutrients r !! c) <$> nutrient_header t))
                 <$> body t) Repeated.per_serving
     = [(1, 50%float, [Some 6%float; Some (-1.0)%float; Some (-1.0)%float]);
        (4, 100%float, [Some 80%float; Some 0.003%float; Some 0.25%float])].
Proof. repeat split; vm_compute; reflexivity. Qed.


Lemma empty_first_amount_gives_sentinel_witness :
  Forall (fun r =>
            fdc_id (r100_food r) = 1 ->
            "Sodium (G)" ∈ nutrient_header Repeated.per_100g ->
            r100_nutrients r !! "Sodium (G)" = Some (-1.0)%float)
         (body Repeated.per_100g).
Proof.
  apply (empty_first_amount_gives_sentinel Sample.float_str Sample.foods
           Sample.nutrients Repeated.measurements Sample.portions Sample.units
           Sample.categories (Some Sample.brands) Repeated.per_100g 1 "Sodium (G)"
           {| fn_fdc_id := 1; fn_nutrient_id := 10; fn_amount := Py.NaN |}).
  - exact repeated_written_100g.
  - vm_compute. reflexivity.
  - reflexivity.
Defined.

Lemma per_100g_has_no_nan_witness :
  Forall (fun r =>
            map_Forall (fun _ v => PrimFloat.is_nan v = false) (r100_nutrients r))
         (body Repeated.per_100g).
Proof.
  exact (per_100g_has_no_nan Sample.float_str Sample.foods
           Sample.nutrients Repeated.measurements Sample.portions Sample.units
           Sample.categories (Some Sample.brands) Repeated.per_100g
           repeated_written_100g).
Defined.

Lemma per_serving_rows_come_from_valid_portions_witness :
  Forall (fun r =>
            exists p u, p ∈ Sample.portions /\ u ∈ Sample.units
              /\ portion_measure_unit_id p = measure_unit_id u
              /\ portion_fdc_id p = fdc_id (rs_food r)
              /\ portion_fdc_id p ∈ all_valid_fdc_ids Repeated.foods
              /\ PrimFloat.is_nan (portion_gram_weight p) = false
              /\ PrimFloat.ltb 0 (portion_gram_weight p) = true
              /\ serving_size_g (rs_serving r) = portion_gram_weight p
              /\ serving_description (rs_serving r)
                 = make_serving_description Sample.float_str (p, u))
         (body Repeated.per_serving).
Proof.
  exact (per_serving_rows_come_from_valid_portions Sample.float_str Sample.foods
           Sample.nutrients Repeated.measurements Sample.portions Sample.units
           Sample.categories (Some Sample.brands) Repeated.per_serving
           repeated_written_serving).
Defined.


Lemma per_100g_header_sorted_unique_witness :
  StronglySorted (fun a b => String.leb a b = true) (nutrient_header Repeated.per_100g)
  /\ NoDup (nutrient_header Repeated.per_100g)
  /\ Forall (fun c => exists n, n ∈ Sample.nutrients /\ c = column_name n)
            (nutrient_header Repeated.per_100g).
Proof.
  exact (per_100g_header_sorted_unique Sample.float_str Sample.foods
           Sample.nutrients Repeated.measurements Sample.portions Sample.units
           Sample.categories (Some Sample.brands) Repeated.per_100g
           repeated_written_100g).
Defined.

Lemma no_measurement_gives_empty_table_witness :
  written_100g
    (create_nutrition_csvs_final Sample.float_str
       {| food_csv := Some Sample.foods; nutrient_csv := Some Sample.nutrients;
          food_nutrient_csv := Some [ {| fn_fdc_id := 3; fn_nutrient_id := 11;
                                         fn_amount := 7 |} ];
          food_portion_csv := Some Sample.portions;
          measure_unit_csv := Some Sample.units;
          food_category_csv := Some Sample.categories;
          branded_food_csv := Some Sample.brands |})
  = Some {| nutrient_header := all_nutrient_columns Sample.nutrients; body := [] |}.
Proof.
  apply (no_measurement_gives_empty_table Sample.float_str Sample.foods
           Sample.nutrients
           [ {| fn_fdc_id := 3; fn_nutrient_id := 11; fn_amount := 7 |} ]
           Sample.portions Sample.units Sample.categories (Some Sample.brands)).
  - exact sample_valid_ids.
  - intros m Hm Hv. apply list_elem_of_singleton in Hm. subst m.
    apply valid_ids_spec in Hv as (x & Hx & Hid & Ht).
    unfold Sample.foods in Hx.
    repeat (apply elem_of_cons in Hx as [->|Hx]; [try discriminate Hid |]).
    + vm_compute in Ht. repeat (apply elem_of_cons in Ht as [Ht|Ht]; [discriminate |]).
      inversion Ht.
    + inversion Hx.
Defined.
